(** * TimeProfiler.h: profiling of run-time behaviour (vvdec, CommonLib)

    A shallow embedding of [source/Lib/CommonLib/TimeProfiler.h]:
    the stage registry [E_TIME_PROF_STAGES], the scalar profiler
    [TimeProfiler] with its scope guard [StageTimeProfiler], and the
    extended profiler [TimeProfiler2D] with its guard
    [StageTimeProfiler2D].

    Conventions of the embedding.
    - [clock::now()] is the only effect of the code.  Every operation that
      reads the clock takes the value read as an argument [now]; a
      [time_point] is the tick count of [std::chrono::steady_clock], whose
      period is one nanosecond in libstdc++, libc++ and the MSVC library.
    - [duration] is [std::chrono::duration<double, std::milli>]: a [double]
      counting milliseconds.  The arithmetic of [double] is an interface
      ([Arith]) with two instances: [binary64], IEEE 754 double precision
      through Rocq's primitive floats, which is what the compiled code
      computes with, and [rational], the same operations without rounding.
      Statements that hold for every instance hold in particular for the
      compiled code; statements that need exact arithmetic say so.
    - Member functions take the object last and return the new object. *)

From Stdlib Require Import ZArith Floats Uint63 QArith Qcanon String Ascii Lia.
From stdpp Require Import base option list.

Local Open Scope Z_scope.

(** ** Arithmetic of [double] *)

Class Arith (D : Type) := {
  (** [static_cast<double>(n)] of a 64-bit integer, and the literal of an
      integral value ([0.0], [1.0], [100.0]) *)
  d_of_Z : Z -> D;
  d_add : D -> D -> D;
  d_mul : D -> D -> D;
  d_div : D -> D -> D;
  (** [operator==] *)
  d_eqb : D -> D -> bool;
}.

(** [duration::zero()], [duration{}] and the literal [0.0]. *)
Definition d_zero {D} {A : Arith D} : D := d_of_Z 0.

(** IEEE 754 binary64, round to nearest even.  [PrimFloat.of_uint63] converts
    a non-negative 63-bit integer; a negative [int64_t] is converted through
    its magnitude, which fits 63 bits for all but the least [int64_t],
    -2^63, itself a [double]. *)
Definition float_of_Z (z : Z) : float :=
  if z <? 0
  then
    if z =? -9223372036854775808
    then PrimFloat.opp 0x1p63%float
    else PrimFloat.opp (PrimFloat.of_uint63 (Uint63.of_Z (- z)))
  else PrimFloat.of_uint63 (Uint63.of_Z z).

#[export] Instance binary64 : Arith float := {
  d_of_Z := float_of_Z;
  d_add := PrimFloat.add;
  d_mul := PrimFloat.mul;
  d_div := PrimFloat.div;
  d_eqb := PrimFloat.eqb;
}.

(** Exact rational arithmetic: the same operations with no rounding. *)
#[export] Instance rational : Arith Qc := {
  d_of_Z := fun z => Q2Qc (inject_Z z);
  d_add := Qcplus;
  d_mul := Qcmult;
  d_div := Qcdiv;
  d_eqb := Qc_eq_bool;
}.

(** ** The clock *)

(** [std::chrono::time_point<steady_clock>]: ticks since the clock's epoch. *)
Definition time_point : Type := Z.

(** [std::milli] against the clock's [std::nano]: ticks per millisecond. *)
Definition ticks_per_milli : Z := 1000000.

(** The implicit conversion of [now - m_previous], a [steady_clock::duration]
    (64-bit tick count), to [duration<double, std::milli>]: the count is
    converted to [double] and divided by the ratio of the periods. *)
Definition to_duration {D} {A : Arith D} (ticks : Z) : D :=
  d_div (d_of_Z ticks) (d_of_Z ticks_per_milli).

(** ** Stage registry *)

(** [enum STAGE], generated by [MAKE_ENUM_AND_STRINGS(E_TIME_PROF_STAGES, ...)].
    [P_VOID = P_STAGES] declares a second name for the value of [P_STAGES]. *)
Inductive STAGE : Set :=
  | P_NALU_SLICE_PIC_HL
  | P_CONTROL_PARSE_DERIVE_LL
  | P_PARSERESIDUALS
  | P_INTRAPRED
  | P_MOTCOMP
  | P_ITRANS_REC
  | P_DBFILTER
  | P_SAO
  | P_RESHAPER
  | P_ALF
  | P_OTHER
  | P_STAGES.

Definition P_VOID : STAGE := P_STAGES.

(** The enumerator's value, used as an index. *)
Definition stage_index (s : STAGE) : nat :=
  match s with
  | P_NALU_SLICE_PIC_HL => 0
  | P_CONTROL_PARSE_DERIVE_LL => 1
  | P_PARSERESIDUALS => 2
  | P_INTRAPRED => 3
  | P_MOTCOMP => 4
  | P_ITRANS_REC => 5
  | P_DBFILTER => 6
  | P_SAO => 7
  | P_RESHAPER => 8
  | P_ALF => 9
  | P_OTHER => 10
  | P_STAGES => 11
  end%nat.

#[export] Instance STAGE_eq_dec : EqDecision STAGE.
Proof. solve_decision. Defined.

(** [stageNames]: the stringified macro arguments, one per line of
    [E_TIME_PROF_STAGES], thirteen in all. *)
Definition stageNames : list string :=
  [ "P_NALU_SLICE_PIC_HL"; "P_CONTROL_PARSE_DERIVE_LL"; "P_PARSERESIDUALS";
    "P_INTRAPRED"; "P_MOTCOMP"; "P_ITRANS_REC"; "P_DBFILTER"; "P_SAO";
    "P_RESHAPER"; "P_ALF"; "P_OTHER"; "P_STAGES"; "P_VOID = P_STAGES" ]%string.

(** ** Output stream *)

(** What [operator<<] inserts into the [std::ostream], in order.  The
    manipulators ([std::setw], [std::left], [std::internal], [std::fixed],
    [std::setprecision]) choose the layout of the inserted values and are not
    part of the model. *)
Inductive item (D : Type) : Type :=
  | Chr (c : ascii)      (* a character, ['\n'] *)
  | Str (s : string)     (* a C string *)
  | Dur (d : D)          (* a [duration]: its [count()] is printed *)
  | Dbl (x : D).         (* a [double] *)
Arguments Chr {D} c.
Arguments Str {D} s.
Arguments Dur {D} d.
Arguments Dbl {D} x.

Definition newline : ascii := "010"%char.

(** ** Scalar profiler: [class TimeProfiler] *)

Module TimeProfiler.
Section WithArith.
Context {D : Type} {A : Arith D}.

(** The members read or written by the code.  [m_iLevel], [m_iExtData],
    [m_numBlkHor], [m_numBlkVer], [m_curWId] and [m_curHId] are declared,
    never initialised and never used. *)
Record t : Type := mk {
  m_previous : time_point;
  m_eStage : STAGE;
  start_time : time_point;
  durations : list D;
}.

(** [const unsigned m_numStages = P_STAGES + 1] *)
Definition m_numStages : nat := S (stage_index P_STAGES).

(** [durations] has the size [init] gives it.  [durations[i]] outside the
    vector is undefined behaviour in C++; with this size every [STAGE]
    is inside. *)
Definition wf (p : t) : Prop := length (durations p) = m_numStages.

(** [init()]: resize to [m_numStages] and assign [zero()] to every slot. *)
Definition init (p : t) : t :=
  mk (m_previous p) (m_eStage p) (start_time p) (replicate m_numStages d_zero).

(** [TimeProfiler()]: [m_previous = clock::now()], [start_time = m_previous],
    [m_eStage(P_VOID)], then [init()]. *)
Definition new (now : time_point) : t :=
  init (mk now P_VOID now []).

(** [durations[i] += d] *)
Definition slot_add (i : nat) (d : D) (l : list D) : list D :=
  alter (fun v => d_add v d) i l.

(** [operator()(STAGE s)] *)
Definition call (s : STAGE) (now : time_point) (p : t) : t :=
  let durations' :=
    slot_add (stage_index (m_eStage p)) (to_duration (now - m_previous p))
             (durations p) in
  mk now s (start_time p) durations'.

(** The loop of [operator+=]: both iterators advance together and the loop
    ends when either vector does. *)
Fixpoint add_all (l1 l2 : list D) : list D :=
  match l1, l2 with
  | x :: l1', y :: l2' => d_add x y :: add_all l1' l2'
  | _, _ => l1
  end.

(** [operator+=(const TimeProfiler& other)] *)
Definition add_assign (other : t) (p : t) : t :=
  mk (m_previous p) (m_eStage p) (start_time p)
     (add_all (durations p) (durations other)).

(** [start(STAGE s)] *)
Definition start (s : STAGE) (now : time_point) (p : t) : t :=
  mk now s (start_time p) (durations p).

(** [stop(STAGE s)] *)
Definition stop (s : STAGE) (now : time_point) (p : t) : t :=
  let durations' :=
    slot_add (stage_index (m_eStage p)) (to_duration (now - m_previous p))
             (durations p) in
  mk (m_previous p) (m_eStage p) (start_time p) durations'.

(** [curStage()] *)
Definition curStage (p : t) : STAGE := m_eStage p.

(** [durations[s]] as an rvalue.  Under [wf] the index is inside the
    vector; the default is never returned then. *)
Definition duration_at (s : STAGE) (p : t) : D :=
  default d_zero (durations p !! stage_index s).

(** [std::accumulate(first, last, init)] with [operator+] *)
Definition accumulate (l : list D) (init : D) : D := foldl d_add init l.

(** [counted]: the sum over [durations.begin()] to [durations.end() - 1]. *)
Definition counted (p : t) : D :=
  accumulate (take (length (durations p) - 1) (durations p)) d_zero.

(** [const double scale = 1.0] *)
Definition scale : D := d_of_Z 1.

(** The body of the loop [for (size_t i = 0; i < P_STAGES; ++i)]: what is
    inserted for index [i], after the output [os] so far. *)
Definition print_stage (p : t) (os : list (item D)) (i : nat) : list (item D) :=
  match durations p !! i with
  | Some v =>
      if negb (d_eqb v d_zero)
      then os ++ [ Str " "; Str (default EmptyString (stageNames !! i));
                   Dur (d_div v scale);
                   Dbl (d_mul (d_div v (counted p)) (d_of_Z 100));
                   Chr newline ]
      else os
  | None => os
  end.

(** [operator<<(std::ostream& os, const TimeProfiler& prof)], on the
    output [os] so far. *)
Definition print (os : list (item D)) (p : t) : list (item D) :=
  let os := os ++ [ Chr newline ] in
  let os := os ++ [ Str " "; Str "stages"; Str "time(ms)"; Str "%";
                    Chr newline ] in
  let os := foldl (print_stage p) os (seq 0 (stage_index P_STAGES)) in
  let os := os ++ [ Chr newline ] in
  os ++ [ Str " "; Str "TOTAL"; Dur (d_div (counted p) scale);
          Dbl (d_of_Z 100); Chr newline ].

(** [output(std::ostream& os)] *)
Definition output (os : list (item D)) (p : t) : list (item D) := print os p.

(** A sequence of [operator()] calls, each with the time it reads. *)
Definition calls (cs : list (STAGE * time_point)) (p : t) : t :=
  foldl (fun p c => call (fst c) (snd c) p) p cs.

End WithArith.
Arguments t D : clear implicits.
End TimeProfiler.

(** ** Scalar scope guard: [class StageTimeProfiler] *)

Module StageTimeProfiler.
Section WithArith.
Context {D : Type} {A : Arith D}.

(** [m_profiler] points to the profiler the guard was built on; the
    profiler is passed to the destructor here. *)
Record t : Type := mk { m_ePrevStage : STAGE }.

(** [StageTimeProfiler(TimeProfiler* pcProfiler, STAGE m_eStage)] *)
Definition new (s : STAGE) (now : time_point) (p : TimeProfiler.t D)
  : t * TimeProfiler.t D :=
  let g := mk (TimeProfiler.curStage p) in
  (g, TimeProfiler.call s now p).

(** [~StageTimeProfiler()] *)
Definition delete (g : t) (now : time_point) (p : TimeProfiler.t D)
  : TimeProfiler.t D :=
  TimeProfiler.call (m_ePrevStage g) now p.

(** Two nested scopes:
    [{ StageTimeProfiler outer(p, Y);  (t0)
       { StageTimeProfiler inner(p, X); (t1)
       }                                (t2)
     }                                  (t3)] *)
Definition nested (Y X : STAGE) (t0 t1 t2 t3 : time_point)
    (p : TimeProfiler.t D) : TimeProfiler.t D :=
  let '(outer, p) := new Y t0 p in
  let '(inner, p) := new X t1 p in
  let p := delete inner t2 p in
  delete outer t3 p.

(** The same two guards destroyed in the order of their construction, as
    when the inner guard outlives the outer one. *)
Definition crossed (Y X : STAGE) (t0 t1 t2 t3 : time_point)
    (p : TimeProfiler.t D) : TimeProfiler.t D :=
  let '(outer, p) := new Y t0 p in
  let '(inner, p) := new X t1 p in
  let p := delete outer t2 p in
  delete inner t3 p.

End WithArith.
End StageTimeProfiler.

(** ** Statistics container: [StatCounter2DSet<double>] *)

Module StatCounter2DSet.
Section WithArith.
Context {D : Type} {A : Arith D}.

(** Modelled from the spec: [StatCounter.h] is not among the sources.  The
    profiler needs from the container one 2-D grid of extents
    (numX, numY) per counter name, addressed as [set[stage][y][x]], and
    the increment [set[stage][y][x] += value]. *)
Definition t : Type := list (list (list D)).

(** Modelled from the spec: [init(names, numX, numY)] allocates one grid of
    the given extents per name, all cells zero. *)
Definition init (names : list string) (numX numY : nat) : t :=
  replicate (length names) (replicate numY (replicate numX d_zero)).

End WithArith.
Arguments t D : clear implicits.
End StatCounter2DSet.

(** ** Extended profiler: [class TimeProfiler2D] *)

Module TimeProfiler2D.
Section WithArith.
Context {D : Type} {A : Arith D}.

(** [unsigned] members hold indices and are never computed with. *)
Record t : Type := mk {
  m_previous : time_point;
  m_startTime : time_point;
  m_stage : STAGE;
  m_numX : nat;
  m_numY : nat;
  m_numZ : nat;
  m_curX : nat;
  m_curY : nat;
  m_curZ : nat;
  m_counters : list (StatCounter2DSet.t D);
}.

(** [TimeProfiler2D(numX = 1, numY = 1, numZ = 1)] *)
Definition new (numX numY numZ : nat) (now : time_point) : t :=
  mk now now P_VOID numX numY numZ 0 0 0
     (replicate numZ (StatCounter2DSet.init stageNames numX numY)).

(** [m_counters[z][s][y][x]] as an rvalue; [None] outside the container. *)
Definition cell (cs : list (StatCounter2DSet.t D)) (z : nat) (s : STAGE)
    (y x : nat) : option D :=
  set ← cs !! z;
  grid ← (set : list (list (list D))) !! stage_index s;
  row ← grid !! y;
  row !! x.

(** [m_counters[z][s][y][x] += d] *)
Definition cell_add (z : nat) (s : STAGE) (y x : nat) (d : D)
    (cs : list (StatCounter2DSet.t D)) : list (StatCounter2DSet.t D) :=
  alter (alter (alter (alter (fun v => d_add v d) x) y) (stage_index s)) z cs.

(** [count(STAGE s, unsigned x, unsigned y, unsigned z)].
    [(now - m_previous).count()] is the tick count, a 64-bit integer,
    converted to [double] by the addition.  Indexing outside the container
    is undefined behaviour: [None]. *)
Definition count (s : STAGE) (x y z : nat) (now : time_point) (p : t)
  : option t :=
  match cell (m_counters p) (m_curZ p) (m_stage p) (m_curY p) (m_curX p) with
  | Some _ =>
      Some (mk now (m_startTime p) s (m_numX p) (m_numY p) (m_numZ p) x y z
               (cell_add (m_curZ p) (m_stage p) (m_curY p) (m_curX p)
                         (d_of_Z (now - m_previous p)) (m_counters p)))
  | None => None
  end.

(** [start(STAGE s)] *)
Definition start (s : STAGE) (now : time_point) (p : t) : t :=
  mk now (m_startTime p) s (m_numX p) (m_numY p) (m_numZ p)
     (m_curX p) (m_curY p) (m_curZ p) (m_counters p).

(** [stop(STAGE s)] *)
Definition stop (s : STAGE) (now : time_point) (p : t) : option t :=
  count (m_stage p) (m_curX p) (m_curY p) (m_curZ p) now p.

(** The container has the shape the constructor gives it: [m_numZ]
    sets of one [m_numY] by [m_numX] grid per stage name, and the current
    key addresses a cell of it. *)
Definition shaped (p : t) : Prop :=
  length (m_counters p) = m_numZ p
  /\ Forall (fun set : list (list (list D)) =>
              length set = length stageNames
              /\ Forall (fun grid : list (list D) =>
                           length grid = m_numY p
                           /\ Forall (fun row : list D =>
                                        length row = m_numX p) grid) set)
            (m_counters p).

Definition wf (p : t) : Prop :=
  shaped p
  /\ (m_curX p < m_numX p)%nat /\ (m_curY p < m_numY p)%nat
  /\ (m_curZ p < m_numZ p)%nat.

Definition curStage (p : t) : STAGE := m_stage p.
Definition curX (p : t) : nat := m_curX p.
Definition curY (p : t) : nat := m_curY p.
Definition curZ (p : t) : nat := m_curZ p.

End WithArith.
Arguments t D : clear implicits.
End TimeProfiler2D.

(** ** Extended scope guard: [class StageTimeProfiler2D] *)

Module StageTimeProfiler2D.
Section WithArith.
Context {D : Type} {A : Arith D}.

(** [m_prevX], [m_prevY] and [m_prevZ] are [int]s assigned from [unsigned]
    and passed back as [unsigned]: the value is unchanged. *)
Record t : Type := mk {
  m_prevStage : STAGE;
  m_prevX : nat;
  m_prevY : nat;
  m_prevZ : nat;
}.

(** [StageTimeProfiler2D(pcProfiler, m_eStage, x, y, z)] *)
Definition new (s : STAGE) (x y z : nat) (now : time_point)
    (p : TimeProfiler2D.t D) : option (t * TimeProfiler2D.t D) :=
  let g := mk (TimeProfiler2D.curStage p) (TimeProfiler2D.curX p)
              (TimeProfiler2D.curY p) (TimeProfiler2D.curZ p) in
  p' ← TimeProfiler2D.count s x y z now p;
  Some (g, p').

(** [~StageTimeProfiler2D()] *)
Definition delete (g : t) (now : time_point) (p : TimeProfiler2D.t D)
  : option (TimeProfiler2D.t D) :=
  TimeProfiler2D.count (m_prevStage g) (m_prevX g) (m_prevY g) (m_prevZ g)
                       now p.

(** One scope: the guard is built at [t0] and destroyed at [t1]. *)
Definition scoped (s : STAGE) (x y z : nat) (t0 t1 : time_point)
    (p : TimeProfiler2D.t D) : option (TimeProfiler2D.t D) :=
  '(g, p) ← new s x y z t0 p;
  delete g t1 p.

End WithArith.
End StageTimeProfiler2D.

(** ** The macros of the call sites *)

Module Macros.
Section WithArith.
Context {D : Type} {A : Arith D}.

(** [PROFILER_START(p,s)] is [p->start(s)]. *)
Definition PROFILER_START (s : STAGE) (now : time_point)
    (p : TimeProfiler.t D) : TimeProfiler.t D :=
  TimeProfiler.start s now p.

(** [PROFILER_STOP(p)] expands to nothing. *)
Definition PROFILER_STOP (p : TimeProfiler.t D) : TimeProfiler.t D := p.

(** [PROFILER_ACCUM_AND_START_NEW_SET(cond,p,s)] under
    [ENABLE_TIME_PROFILING] is [p->operator()(s)], whatever [cond]. *)
Definition PROFILER_ACCUM_AND_START_NEW_SET (cond : bool) (s : STAGE)
    (now : time_point) (p : TimeProfiler.t D) : TimeProfiler.t D :=
  TimeProfiler.call s now p.

(** [PROFILER_SCOPE_AND_STAGE(cond,p,s)] under [ENABLE_TIME_PROFILING]:
    [cond] is the token 0 or 1; with 1 a [StageTimeProfiler] lives to the
    end of the block, with 0 nothing is declared.  [body] is the rest of
    the block, which reads the clock itself; the guard is built at [t0]
    and destroyed at [t1]. *)
Definition PROFILER_SCOPE_AND_STAGE (cond : bool) (s : STAGE)
    (t0 t1 : time_point) (body : TimeProfiler.t D -> TimeProfiler.t D)
    (p : TimeProfiler.t D) : TimeProfiler.t D :=
  if cond then
    let '(g, p) := StageTimeProfiler.new s t0 p in
    StageTimeProfiler.delete g t1 (body p)
  else body p.

(** [PROFILER_EXT_ACCUM_AND_START_NEW_SET(cond,p,s,t)] under
    [ENABLE_TIME_PROFILING_EXTENDED]: with [cond] 1 it is
    [p->count(s,t,0,0)], with 0 nothing. *)
Definition PROFILER_EXT_ACCUM_AND_START_NEW_SET (cond : bool) (s : STAGE)
    (t : nat) (now : time_point) (p : TimeProfiler2D.t D)
  : option (TimeProfiler2D.t D) :=
  if cond then TimeProfiler2D.count s t 0 0 now p else Some p.

End WithArith.
End Macros.

(** ** The Reporter's contract *)

(** The report as the specification words it: the tracked total is the sum
    over all stages but the sentinel [P_VOID]; every stage with a nonzero
    duration has one row, in registry order, with its name, its duration and
    its share of the tracked total in percent; a [TOTAL] row ends the
    report. *)
Module Reporter.
Section WithArith.
Context {D : Type} {A : Arith D}.

(** The registry without the sentinel [P_VOID], in its order. *)
Definition real_stages : list STAGE :=
  [ P_NALU_SLICE_PIC_HL; P_CONTROL_PARSE_DERIVE_LL; P_PARSERESIDUALS;
    P_INTRAPRED; P_MOTCOMP; P_ITRANS_REC; P_DBFILTER; P_SAO; P_RESHAPER;
    P_ALF; P_OTHER ].

(** The display name of a stage: its identifier. *)
Definition stage_name (s : STAGE) : string :=
  match s with
  | P_NALU_SLICE_PIC_HL => "P_NALU_SLICE_PIC_HL"
  | P_CONTROL_PARSE_DERIVE_LL => "P_CONTROL_PARSE_DERIVE_LL"
  | P_PARSERESIDUALS => "P_PARSERESIDUALS"
  | P_INTRAPRED => "P_INTRAPRED"
  | P_MOTCOMP => "P_MOTCOMP"
  | P_ITRANS_REC => "P_ITRANS_REC"
  | P_DBFILTER => "P_DBFILTER"
  | P_SAO => "P_SAO"
  | P_RESHAPER => "P_RESHAPER"
  | P_ALF => "P_ALF"
  | P_OTHER => "P_OTHER"
  | P_STAGES => "P_STAGES"
  end.

Definition trackedTotal (p : TimeProfiler.t D) : D :=
  foldl d_add d_zero (map (fun s => TimeProfiler.duration_at s p) real_stages).

Definition row (name : string) (time pct : D) : list (item D) :=
  [ Str " "; Str name; Dur time; Dbl pct; Chr newline ].

Definition stage_row (p : TimeProfiler.t D) (s : STAGE) : list (item D) :=
  let v := TimeProfiler.duration_at s p in
  if negb (d_eqb v d_zero)
  then row (stage_name s) v (d_mul (d_div v (trackedTotal p)) (d_of_Z 100))
  else [].

Definition heading : list (item D) :=
  [ Chr newline; Str " "; Str "stages"; Str "time(ms)"; Str "%";
    Chr newline ].

Definition report (p : TimeProfiler.t D) : list (item D) :=
  heading ++ flat_map (stage_row p) real_stages ++ [ Chr newline ]
  ++ row "TOTAL" (trackedTotal p) (d_of_Z 100).

(** The profiler with another duration in the slot of [P_VOID]. *)
Definition with_void (d : D) (p : TimeProfiler.t D) : TimeProfiler.t D :=
  TimeProfiler.mk (TimeProfiler.m_previous p) (TimeProfiler.m_eStage p)
    (TimeProfiler.start_time p)
    (<[stage_index P_VOID := d]> (TimeProfiler.durations p)).

(** The percentages a report shows: the [double]s inserted. *)
Definition percentages (os : list (item D)) : list D :=
  omap (fun it => match it with Dbl x => Some x | _ => None end) os.

End WithArith.
End Reporter.

(** ** Exact arithmetic *)

(** What addition and the conversion of intervals satisfy when nothing is
    rounded.  [rational] satisfies it; [binary64] does not. *)
Class ExactArith {D : Type} (A : Arith D) : Prop := {
  d_add_comm : forall x y : D, d_add x y = d_add y x;
  d_add_assoc : forall x y z : D, d_add x (d_add y z) = d_add (d_add x y) z;
  d_add_0_l : forall x : D, d_add d_zero x = x;
  to_duration_0 : to_duration 0 = d_zero;
  to_duration_add :
    forall a b : Z, to_duration (a + b) = d_add (to_duration a) (to_duration b);
}.

(** ** Calls a whole number of milliseconds apart *)

(** The calls [cs], in their order, are made at times that do not go back
    and are a whole number of milliseconds after [t] and after each
    other. *)
Fixpoint paced (t : time_point) (cs : list (STAGE * time_point)) : Prop :=
  match cs with
  | [] => True
  | c :: cs' =>
      t <= snd c /\ (ticks_per_milli | snd c - t) /\ paced (snd c) cs'
  end.

(** The first [n] slots of [p] hold the whole numbers of milliseconds [ms],
    which sum to the time from [t1] to the last transition. *)
Definition whole_ms (n : nat) (t1 : time_point) (p : TimeProfiler.t float)
    (ms : list Z) : Prop :=
  TimeProfiler.wf p
  /\ take n (TimeProfiler.durations p) = map float_of_Z ms
  /\ Forall (fun z => 0 <= z) ms
  /\ foldr Z.add 0 ms * ticks_per_milli = TimeProfiler.m_previous p - t1.

(** ** Signs of [double]s *)

(** [0.0 <= x]: not a NaN and not below zero. *)
Definition nonnegative (x : float) : Prop := PrimFloat.leb 0 x = true.

(** Zero of either sign, a positive number or plus infinity. *)
Definition not_below_zero (x : spec_float) : Prop :=
  match x with
  | S754_zero _ | S754_infinity false | S754_finite false _ _ => True
  | _ => False
  end.

(** A positive number or plus infinity. *)
Definition is_positive (x : spec_float) : Prop :=
  match x with
  | S754_infinity false | S754_finite false _ _ => True
  | _ => False
  end.

(** The binary64 number of value [k], for a whole [k] from 0 to 2^53: the
    bits of [k] shifted up to a mantissa of 53 bits. *)
Definition whole (k : Z) : spec_float :=
  match k with
  | Zpos p =>
      S754_finite false
        (Z.to_pos (Zpos p * 2 ^ (53 - Zpos (digits2_pos p))))
        (Zpos (digits2_pos p) - 53)
  | _ => S754_zero false
  end.

(** The sign bit is clear, or the value is a NaN. *)
Definition not_negative (x : spec_float) : Prop :=
  match x with
  | S754_zero s | S754_infinity s | S754_finite s _ _ => s = false
  | S754_nan => True
  end.

(** * Properties *)

(** ** The stage registry *)

Lemma stage_index_inj (s1 s2 : STAGE) :
  stage_index s1 = stage_index s2 -> s1 = s2.
Proof. destruct s1, s2; simpl; congruence. Qed.

Lemma stage_index_lt (s : STAGE) :
  (stage_index s < TimeProfiler.m_numStages)%nat.
Proof. unfold TimeProfiler.m_numStages. destruct s; simpl; lia. Qed.

(** ** Slots of the scalar profiler *)

Section Slots.
Context {D : Type} {A : Arith D}.
Implicit Types (p : TimeProfiler.t D) (s : STAGE) (l : list D).

Lemma slot_add_length i d l :
  length (TimeProfiler.slot_add i d l) = length l.
Proof. apply length_alter. Qed.

Lemma slot_add_lookup i d l v :
  l !! i = Some v ->
  TimeProfiler.slot_add i d l !! i = Some (d_add v d).
Proof.
  intros Hv. unfold TimeProfiler.slot_add.
  rewrite list_lookup_alter_eq, Hv. reflexivity.
Qed.

Lemma slot_add_lookup_ne i j d l :
  i <> j -> TimeProfiler.slot_add i d l !! j = l !! j.
Proof. intros Hne. unfold TimeProfiler.slot_add. by apply list_lookup_alter_ne. Qed.

Lemma wf_lookup p s :
  TimeProfiler.wf p -> is_Some (TimeProfiler.durations p !! stage_index s).
Proof.
  intros Hwf. apply lookup_lt_is_Some. rewrite Hwf. apply stage_index_lt.
Qed.

Lemma duration_at_lookup p s :
  TimeProfiler.wf p ->
  TimeProfiler.durations p !! stage_index s
  = Some (TimeProfiler.duration_at s p).
Proof.
  intros Hwf. unfold TimeProfiler.duration_at.
  destruct (wf_lookup p s Hwf) as [v ->]. reflexivity.
Qed.

Lemma wf_new now : TimeProfiler.wf (TimeProfiler.new now).
Proof. reflexivity. Qed.

Lemma wf_call s now p :
  TimeProfiler.wf p -> TimeProfiler.wf (TimeProfiler.call s now p).
Proof. unfold TimeProfiler.wf. simpl. by rewrite slot_add_length. Qed.

Lemma wf_stop s now p :
  TimeProfiler.wf p -> TimeProfiler.wf (TimeProfiler.stop s now p).
Proof. unfold TimeProfiler.wf. simpl. by rewrite slot_add_length. Qed.

Lemma wf_start s now p :
  TimeProfiler.wf p -> TimeProfiler.wf (TimeProfiler.start s now p).
Proof. done. Qed.

Lemma add_all_length (l1 l2 : list D) :
  length (TimeProfiler.add_all l1 l2) = length l1.
Proof.
  revert l2. induction l1 as [|x l1 IH]; intros [|y l2]; simpl; auto.
Qed.

Lemma wf_add_assign other p :
  TimeProfiler.wf p -> TimeProfiler.wf (TimeProfiler.add_assign other p).
Proof. unfold TimeProfiler.wf. simpl. by rewrite add_all_length. Qed.

Lemma duration_at_call_active s now p :
  TimeProfiler.wf p ->
  TimeProfiler.duration_at (TimeProfiler.m_eStage p) (TimeProfiler.call s now p)
  = d_add (TimeProfiler.duration_at (TimeProfiler.m_eStage p) p)
          (to_duration (now - TimeProfiler.m_previous p)).
Proof.
  intros Hwf. unfold TimeProfiler.duration_at at 1. simpl.
  erewrite slot_add_lookup; [reflexivity|]. by apply duration_at_lookup.
Qed.

Lemma duration_at_call_other s s' now p :
  s' <> TimeProfiler.m_eStage p ->
  TimeProfiler.duration_at s' (TimeProfiler.call s now p)
  = TimeProfiler.duration_at s' p.
Proof.
  intros Hne. unfold TimeProfiler.duration_at. simpl.
  rewrite slot_add_lookup_ne; [reflexivity|].
  intros Heq. apply Hne. symmetry. by apply stage_index_inj.
Qed.

End Slots.

(** ** Retroactive attribution *)

(** C1.  [operator()] charges the interval since the last transition to the
    stage that was active before the call, leaves every other slot as it
    was, makes the argument the active stage and the time read the last
    transition.  In the worked scenario ([start(P_INTRAPRED)] at 0 ms,
    [P_MOTCOMP] at 10 ms, [P_VOID] at 15 ms) the code computes, in double
    precision, 10 ms for [P_INTRAPRED], 5 ms for [P_MOTCOMP] and a tracked
    total of 15 ms. *)
Theorem call_charges_active_stage :
  (forall (D : Type) (A : Arith D) (p : TimeProfiler.t D) (s : STAGE)
          (now : time_point),
      TimeProfiler.wf p ->
      let S0 := TimeProfiler.m_eStage p in
      let t0 := TimeProfiler.m_previous p in
      let p' := TimeProfiler.call s now p in
      TimeProfiler.duration_at S0 p'
      = d_add (TimeProfiler.duration_at S0 p) (to_duration (now - t0))
      /\ (forall s', s' <> S0 ->
            TimeProfiler.duration_at s' p' = TimeProfiler.duration_at s' p)
      /\ TimeProfiler.m_eStage p' = s
      /\ TimeProfiler.m_previous p' = now)
  /\ (forall tc : time_point,
        let p : TimeProfiler.t float :=
          TimeProfiler.call P_VOID (15 * ticks_per_milli)
            (TimeProfiler.call P_MOTCOMP (10 * ticks_per_milli)
               (TimeProfiler.start P_INTRAPRED 0 (TimeProfiler.new tc))) in
        TimeProfiler.duration_at P_INTRAPRED p = 10%float
        /\ TimeProfiler.duration_at P_MOTCOMP p = 5%float
        /\ TimeProfiler.counted p = 15%float).
Proof.
  split.
  - intros D A p s now Hwf S0 t0 p'. repeat split.
    + by apply duration_at_call_active.
    + intros s' Hne. by apply duration_at_call_other.
  - intros tc. vm_compute. auto.
Qed.

Lemma call_charges_active_stage_witness :
  TimeProfiler.duration_at P_INTRAPRED
    (TimeProfiler.call P_MOTCOMP (10 * ticks_per_milli)
       (TimeProfiler.start P_INTRAPRED 0 (TimeProfiler.new (D:=float) 0)))
  = d_add (TimeProfiler.duration_at P_INTRAPRED
             (TimeProfiler.start P_INTRAPRED 0 (TimeProfiler.new (D:=float) 0)))
          (to_duration (10 * ticks_per_milli - 0)).
Proof.
  refine (proj1 (proj1 call_charges_active_stage float binary64
    (TimeProfiler.start P_INTRAPRED 0 (TimeProfiler.new 0)) P_MOTCOMP
    (10 * ticks_per_milli) _)).
  reflexivity.
Defined.

(** ** IEEE 754 facts used below *)

Lemma Prim2SF_inj (x y : float) : Prim2SF x = Prim2SF y -> x = y.
Proof.
  intros H. rewrite <- (SF2Prim_Prim2SF x), <- (SF2Prim_Prim2SF y).
  by rewrite H.
Qed.

Lemma SFadd_comm prec emax x y : SFadd prec emax x y = SFadd prec emax y x.
Proof.
  destruct x as [[]|[]| |sx mx ex], y as [[]|[]| |sy my ey]; try reflexivity.
  cbn [SFadd]. rewrite (Z.min_comm ex ey). f_equal. apply Z.add_comm.
Qed.

(** Addition of [double]s is commutative. *)
Lemma float_add_comm (x y : float) : (x + y = y + x)%float.
Proof.
  apply Prim2SF_inj. rewrite !FloatAxioms.add_spec. apply SFadd_comm.
Qed.

Lemma binary_round_aux_not_negative prec emax m e l :
  not_negative (binary_round_aux prec emax false m e l).
Proof.
  unfold binary_round_aux.
  destruct (shr_fexp prec emax m e l) as [mrs' e'].
  destruct (shr_fexp prec emax _ e' loc_Exact) as [mrs'' e''].
  destruct (shr_m mrs''); [reflexivity| |exact I].
  destruct (_ <=? _); reflexivity.
Qed.

Lemma binary_normalize_not_negative prec emax z e :
  0 <= z -> not_negative (binary_normalize prec emax z e false).
Proof.
  intros Hz. destruct z as [|m|m]; [reflexivity| |lia].
  cbn [binary_normalize]. unfold binary_round.
  destruct (shl_align _ _ _). apply binary_round_aux_not_negative.
Qed.

Lemma float_of_Z_not_negative z :
  0 <= z -> not_negative (Prim2SF (float_of_Z z)).
Proof.
  intros Hz. unfold float_of_Z. destruct (Z.ltb_spec z 0); [lia|].
  rewrite of_uint63_spec. apply binary_normalize_not_negative.
  apply Uint63.to_Z_bounded.
Qed.

Lemma Prim2SF_ticks_per_milli :
  Prim2SF (float_of_Z ticks_per_milli)
  = S754_finite false 8589934592000000 (-33).
Proof. vm_compute. reflexivity. Qed.

(** An interval that is not negative converts to a duration whose sign bit
    is clear. *)
Lemma to_duration_not_negative z :
  0 <= z -> not_negative (Prim2SF (to_duration (D:=float) z)).
Proof.
  intros Hz. unfold to_duration. cbn [d_div d_of_Z binary64].
  rewrite FloatAxioms.div_spec, Prim2SF_ticks_per_milli.
  pose proof (float_of_Z_not_negative z Hz) as Hn.
  destruct (Prim2SF (float_of_Z z)) as [s|s| |s m e]; simpl in Hn; subst;
    unfold SF64div, SFdiv; try exact eq_refl; try exact I.
  destruct (SFdiv_core_binary _ _ _ _ _ _) as [[mz ez] lz].
  apply binary_round_aux_not_negative.
Qed.

(** [0.0 + x] is [x], unless [x] is the negative zero. *)
Lemma float_add_0_l (x : float) :
  not_negative (Prim2SF x) -> (0 + x = x)%float.
Proof.
  intros Hx. apply Prim2SF_inj. rewrite FloatAxioms.add_spec.
  change (Prim2SF 0) with (S754_zero false).
  destruct (Prim2SF x) as [s|s| |s m e]; simpl in Hx; subst; reflexivity.
Qed.

Lemma float_add_0_to_duration z :
  0 <= z -> d_add d_zero (to_duration (D:=float) z) = to_duration z.
Proof. intros Hz. apply float_add_0_l. by apply to_duration_not_negative. Qed.

(** ** Scope guards *)

Section Guards.
Context {D : Type} {A : Arith D}.
Implicit Types (p : TimeProfiler.t D) (s X Y : STAGE).

Lemma duration_at_call s' s now p :
  TimeProfiler.wf p ->
  TimeProfiler.duration_at s' (TimeProfiler.call s now p)
  = if decide (s' = TimeProfiler.m_eStage p)
    then d_add (TimeProfiler.duration_at s' p)
               (to_duration (now - TimeProfiler.m_previous p))
    else TimeProfiler.duration_at s' p.
Proof.
  intros Hwf. case_decide as Hs.
  - subst s'. by apply duration_at_call_active.
  - by apply duration_at_call_other.
Qed.

(** Two properly nested guards, on any profiler and for any arithmetic:
    what each slot gains. *)
Lemma nested_gains Y X t0 t1 t2 t3 p :
  TimeProfiler.wf p ->
  X <> Y -> TimeProfiler.m_eStage p <> X -> TimeProfiler.m_eStage p <> Y ->
  let p' := StageTimeProfiler.nested Y X t0 t1 t2 t3 p in
  TimeProfiler.duration_at X p'
  = d_add (TimeProfiler.duration_at X p) (to_duration (t2 - t1))
  /\ TimeProfiler.duration_at Y p'
     = d_add (d_add (TimeProfiler.duration_at Y p) (to_duration (t1 - t0)))
             (to_duration (t3 - t2))
  /\ TimeProfiler.curStage p' = TimeProfiler.curStage p.
Proof.
  intros Hwf HXY HX HY p'. subst p'.
  unfold StageTimeProfiler.nested, StageTimeProfiler.new,
    StageTimeProfiler.delete, TimeProfiler.curStage.
  cbn [StageTimeProfiler.m_ePrevStage].
  rewrite !duration_at_call by auto using wf_call.
  cbn [TimeProfiler.call TimeProfiler.m_eStage TimeProfiler.m_previous].
  repeat case_decide; try congruence. done.
Qed.

End Guards.

(** C3.  An outer guard for [Y] built at [t0], an inner guard for [X] built
    at [t1] and destroyed at [t2], the outer one destroyed at [t3]: on a
    profiler in which neither stage is active and both slots are zero, the
    code computes [t2 - t1] for [X] and [(t1 - t0) + (t3 - t2)] for [Y], in
    double precision, and the stage active before is active again.  The
    constructor captures the current stage and transitions to the new one;
    the destructor transitions to the captured stage. *)
Theorem nested_guards_durations :
  (forall (p : TimeProfiler.t float) (Y X : STAGE) (t0 t1 t2 t3 : time_point),
      TimeProfiler.wf p ->
      X <> Y -> TimeProfiler.m_eStage p <> X -> TimeProfiler.m_eStage p <> Y ->
      TimeProfiler.duration_at X p = 0%float ->
      TimeProfiler.duration_at Y p = 0%float ->
      t0 < t1 -> t1 < t2 -> t2 < t3 ->
      let p' := StageTimeProfiler.nested Y X t0 t1 t2 t3 p in
      TimeProfiler.duration_at X p' = to_duration (t2 - t1)
      /\ TimeProfiler.duration_at Y p'
         = (to_duration (t1 - t0) + to_duration (t3 - t2))%float
      /\ TimeProfiler.curStage p' = TimeProfiler.curStage p)
  /\ (forall (D : Type) (A : Arith D) (p : TimeProfiler.t D) (s : STAGE)
             (now : time_point),
        StageTimeProfiler.new s now p
        = (StageTimeProfiler.mk (TimeProfiler.curStage p),
           TimeProfiler.call s now p)
        /\ forall g : StageTimeProfiler.t,
            StageTimeProfiler.delete g now p
            = TimeProfiler.call (StageTimeProfiler.m_ePrevStage g) now p).
Proof.
  split; [|by intros; split].
  intros p Y X t0 t1 t2 t3 Hwf HXY HX HY H0X H0Y H01 H12 H23 p'.
  destruct (nested_gains Y X t0 t1 t2 t3 p Hwf HXY HX HY) as (HX' & HY' & Hs).
  fold p' in HX', HY', Hs. rewrite HX', HY', H0X, H0Y.
  change 0%float with (d_zero (D:=float)).
  rewrite !float_add_0_to_duration by lia. done.
Qed.

Lemma nested_guards_durations_witness :
  TimeProfiler.duration_at P_INTRAPRED
    (StageTimeProfiler.nested P_MOTCOMP P_INTRAPRED 1 3 7 12
       (TimeProfiler.new (D:=float) 0))
  = to_duration (7 - 3)
  /\ TimeProfiler.duration_at P_MOTCOMP
       (StageTimeProfiler.nested P_MOTCOMP P_INTRAPRED 1 3 7 12
          (TimeProfiler.new (D:=float) 0))
     = (to_duration (3 - 1) + to_duration (12 - 7))%float.
Proof.
  pose proof (proj1 nested_guards_durations (TimeProfiler.new 0)
                P_MOTCOMP P_INTRAPRED 1 3 7 12) as H.
  simpl in H.
  destruct H as (HX & HY & _);
    [reflexivity | discriminate | discriminate | discriminate
    | reflexivity | reflexivity | lia | lia | lia | ].
  split; [exact HX | exact HY].
Defined.

(** *** Rounding a positive mantissa never gives zero *)


Lemma fexp_ge_emin x : emin <= fexp prec emax x.
Proof. unfold fexp. apply Z.le_max_r. Qed.

Lemma fexp_shift d e :
  emin <= e -> fexp prec emax (d + e) - e <= Z.max (d - prec) 0.
Proof. unfold fexp. lia. Qed.

Lemma shr_1_digits r :
  0 <= shr_m r ->
  0 <= shr_m (shr_1 r)
  /\ Zdigits2 (shr_m (shr_1 r)) = Z.max 0 (Zdigits2 (shr_m r) - 1).
Proof.
  destruct r as [m b s]. simpl. intros Hm.
  destruct m as [|[p|p|]|p]; simpl; lia.
Qed.

Lemma iter_shr_1_digits k r :
  0 <= shr_m r ->
  0 <= shr_m (SpecFloat.iter_pos shr_1 k r)
  /\ Zdigits2 (shr_m (SpecFloat.iter_pos shr_1 k r))
     = Z.max 0 (Zdigits2 (shr_m r) - Zpos k).
Proof.
  revert r. induction k as [k IH|k IH|]; intros r Hr; simpl.
  - destruct (shr_1_digits r Hr) as [H1 D1].
    destruct (IH _ H1) as [H2 D2]. destruct (IH _ H2) as [H3 D3].
    split; [done|]. rewrite D3, D2, D1. lia.
  - destruct (IH _ Hr) as [H2 D2]. destruct (IH _ H2) as [H3 D3].
    split; [done|]. rewrite D3, D2. lia.
  - destruct (shr_1_digits r Hr) as [H1 D1]. split; [done|]. rewrite D1. lia.
Qed.

Lemma Zdigits2_pos_inv z : 0 <= z -> 0 < Zdigits2 z -> exists m, z = Zpos m.
Proof. destruct z as [|m|m]; simpl; intros; [lia|by eexists|lia]. Qed.

Lemma shr_record_of_loc_m m l : shr_m (shr_record_of_loc m l) = m.
Proof. by destruct l as [|[]]. Qed.

Lemma shr_fexp_positive m e l :
  emin <= e ->
  exists m',
    shr_m (fst (shr_fexp prec emax (Zpos m) e l)) = Zpos m'
    /\ emin <= snd (shr_fexp prec emax (Zpos m) e l).
Proof.
  intros He. unfold shr_fexp, shr.
  pose proof (fexp_shift (Zdigits2 (Zpos m)) e He) as Hn.
  destruct (fexp prec emax (Zdigits2 (Zpos m) + e) - e) as [|k|k] eqn:En;
    cbn [fst snd].
  - exists m. by rewrite shr_record_of_loc_m.
  - destruct (iter_shr_1_digits k (shr_record_of_loc (Zpos m) l)) as [H0 Hd];
      [by rewrite shr_record_of_loc_m|].
    rewrite shr_record_of_loc_m in Hd.
    destruct (Zdigits2_pos_inv _ H0) as [m' Hm'].
    + rewrite Hd. simpl Zdigits2 in *. unfold prec in Hn. lia.
    + exists m'. split; [done|]. lia.
  - exists m. by rewrite shr_record_of_loc_m.
Qed.

Lemma round_nearest_even_positive m l :
  exists m', round_nearest_even (Zpos m) l = Zpos m'.
Proof.
  unfold round_nearest_even.
  destruct l as [|[]]; try by eexists.
  destruct (Z.even (Zpos m)); by eexists.
Qed.

Lemma binary_round_aux_positive m e l :
  emin <= e -> is_positive (binary_round_aux prec emax false (Zpos m) e l).
Proof.
  intros He. unfold binary_round_aux.
  destruct (shr_fexp_positive m e l He) as (m1 & Hm1 & He1).
  destruct (shr_fexp prec emax (Zpos m) e l) as [mrs' e']. cbn [fst snd] in *.
  rewrite Hm1.
  destruct (round_nearest_even_positive m1 (loc_of_shr_record mrs')) as [m2 ->].
  destruct (shr_fexp_positive m2 e' loc_Exact He1) as (m3 & Hm3 & He3).
  destruct (shr_fexp prec emax (Zpos m2) e' loc_Exact) as [mrs'' e''].
  cbn [fst snd] in *. rewrite Hm3.
  by destruct (_ <=? _).
Qed.

Lemma binary_round_positive m e :
  emin <= e -> is_positive (binary_round prec emax false m e).
Proof.
  intros He. unfold binary_round, shl_align.
  pose proof (fexp_ge_emin (Zpos (digits2_pos m) + e)).
  destruct (fexp prec emax (Zpos (digits2_pos m) + e) - e) eqn:En;
    apply binary_round_aux_positive; lia.
Qed.

Lemma valid_finite_emin s m e :
  valid_binary (S754_finite s m e) = true -> emin <= e.
Proof.
  simpl. unfold bounded, canonical_mantissa.
  intros [H _]%andb_prop. apply Z.eqb_eq in H. rewrite <- H.
  apply fexp_ge_emin.
Qed.

Lemma SFadd_not_below_zero x y :
  valid_binary x = true -> valid_binary y = true ->
  not_below_zero x -> not_below_zero y ->
  not_below_zero (SF64add x y)
  /\ ((exists s, SF64add x y = S754_zero s) ->
      (exists s, x = S754_zero s) /\ (exists s, y = S754_zero s)).
Proof.
  intros Vx Vy Hx Hy.
  destruct x as [sx|[]| |[] mx ex], y as [sy|[]| |[] my ey];
    try (exfalso; exact Hx); try (exfalso; exact Hy);
    try (split; [exact I | intros [s Hs]; discriminate Hs]).
  - split; [by destruct sx, sy | intros _; split; by eexists].
  - apply valid_finite_emin in Vx, Vy.
    assert (is_positive (SF64add (S754_finite false mx ex)
                                 (S754_finite false my ey))) as Hpos.
    { unfold SF64add, SFadd. cbn [cond_Zopp].
      change (Zpos ?a + Zpos ?b) with (Zpos (a + b)).
      cbn [binary_normalize]. apply binary_round_positive. lia. }
    destruct (SF64add _ _) as [s|[]| |[] m e]; try (exfalso; exact Hpos);
      (split; [exact I | intros [s' Hs]; discriminate Hs]).
Qed.

Lemma Prim2SF_zero : Prim2SF 0 = S754_zero false.
Proof. reflexivity. Qed.

Lemma nonnegative_spec (x : float) :
  nonnegative x <-> not_below_zero (Prim2SF x).
Proof.
  unfold nonnegative. rewrite FloatAxioms.leb_spec, Prim2SF_zero.
  destruct (Prim2SF x) as [s|[]| |[] m e]; simpl; intuition discriminate.
Qed.

Lemma float_is_zero_spec (x : float) :
  PrimFloat.eqb x 0 = true <-> exists s, Prim2SF x = S754_zero s.
Proof.
  rewrite FloatAxioms.eqb_spec, Prim2SF_zero.
  destruct (Prim2SF x) as [s|[]| |[] m e]; simpl; split;
    try discriminate; try (intros [s' Hs]; discriminate Hs); eauto.
Qed.

(** The sum of two [double]s that are not below zero is not below zero, and
    it is zero only if both are. *)
Lemma float_add_nonnegative (x y : float) :
  nonnegative x -> nonnegative y ->
  nonnegative (x + y)
  /\ (PrimFloat.eqb (x + y) 0 = true ->
      PrimFloat.eqb x 0 = true /\ PrimFloat.eqb y 0 = true).
Proof.
  rewrite !nonnegative_spec, !float_is_zero_spec, FloatAxioms.add_spec.
  apply SFadd_not_below_zero; apply Prim2SF_valid.
Qed.

Lemma foldl_add_nonnegative (l : list float) (acc : float) :
  nonnegative acc -> Forall nonnegative l ->
  nonnegative (foldl PrimFloat.add acc l)
  /\ (PrimFloat.eqb (foldl PrimFloat.add acc l) 0 = true ->
      PrimFloat.eqb acc 0 = true
      /\ Forall (fun v => PrimFloat.eqb v 0 = true) l).
Proof.
  revert acc. induction l as [|x l IH]; intros acc Hacc Hl; simpl.
  - split; [done|]. intros H. by split.
  - apply Forall_cons in Hl as [Hx Hl].
    destruct (float_add_nonnegative acc x Hacc Hx) as [Hsum Hzero].
    destruct (IH _ Hsum Hl) as [Hnn Hz]. split; [done|].
    intros H. destruct (Hz H) as [H0 Hall]. destruct (Hzero H0) as [Ha Hx0].
    split; [done|]. by constructor.
Qed.

(** A zero over the unit scale is a zero. *)
Lemma float_zero_div_scale (x : float) :
  PrimFloat.eqb x 0 = true ->
  PrimFloat.eqb (x / TimeProfiler.scale) 0 = true.
Proof.
  rewrite !float_is_zero_spec. intros [s Hs].
  rewrite FloatAxioms.div_spec, Hs.
  assert (Prim2SF (TimeProfiler.scale (D:=float))
          = S754_finite false 4503599627370496 (-52)) as ->
    by (vm_compute; reflexivity).
  by eexists.
Qed.

(** *** Division by one is exact *)

Lemma div_eucl_exact (m b : Z) :
  0 < b -> Z.div_eucl (m * b) b = (m, 0).
Proof.
  intros Hb. pose proof (Z_div_mod (m * b) b ltac:(lia)) as H.
  destruct (Z.div_eucl (m * b) b) as [q r]. destruct H as [H1 H2].
  assert (q = m) by nia. subst q. f_equal. lia.
Qed.

Lemma new_location_exact (n : Z) : new_location n 0 = loc_Exact.
Proof. unfold new_location. by destruct (Z.even n). Qed.

Lemma shr_fexp_canonical (m : positive) (e : Z) (l : location) :
  fexp prec emax (Zpos (digits2_pos m) + e) = e ->
  shr_fexp prec emax (Zpos m) e l = (shr_record_of_loc (Zpos m) l, e).
Proof.
  intros Hc. unfold shr_fexp. cbn [Zdigits2]. rewrite Hc, Z.sub_diag.
  reflexivity.
Qed.

(** Rounding a mantissa that is already canonical gives it back. *)
Lemma binary_round_aux_canonical (s : bool) (m : positive) (e : Z) :
  bounded prec emax m e = true ->
  binary_round_aux prec emax s (Zpos m) e loc_Exact = S754_finite s m e.
Proof.
  unfold bounded, canonical_mantissa.
  intros [Hc He]%andb_prop. apply Z.eqb_eq in Hc.
  unfold binary_round_aux.
  rewrite (shr_fexp_canonical m e loc_Exact Hc).
  cbn [shr_record_of_loc shr_m loc_of_shr_record round_nearest_even].
  rewrite (shr_fexp_canonical m e loc_Exact Hc).
  cbn [shr_record_of_loc shr_m]. by rewrite He.
Qed.

Lemma bounded_cases (m : positive) (e : Z) :
  bounded prec emax m e = true ->
  fexp prec emax (Zpos (digits2_pos m) + e) = e
  /\ e <= 971
  /\ (e = -1074 /\ Zpos (digits2_pos m) <= 53
      \/ -1074 < e /\ Zpos (digits2_pos m) = 53).
Proof.
  unfold bounded, canonical_mantissa.
  intros [Hc He]%andb_prop. apply Z.eqb_eq in Hc. apply Z.leb_le in He.
  split; [exact Hc|]. revert Hc He. unfold fexp, emin, prec, emax. lia.
Qed.

(** Rounding twice a canonical 53-bit mantissa, one exponent lower. *)
Lemma binary_round_aux_double (s : bool) (m : positive) (e : Z) :
  bounded prec emax m e = true -> -1074 < e ->
  binary_round_aux prec emax s (Zpos (xO m)) (e - 1) loc_Exact
  = S754_finite s m e.
Proof.
  intros Hb Hmin. destruct (bounded_cases m e Hb) as (Hc & He & Hd).
  unfold binary_round_aux, shr_fexp.
  assert (fexp prec emax (Zdigits2 (Zpos (xO m)) + (e - 1)) - (e - 1) = 1)
    as ->.
  { cbn [Zdigits2 digits2_pos]. unfold fexp, emin, prec, emax. lia. }
  cbn [shr shr_record_of_loc SpecFloat.iter_pos shr_1 shr_m orb
       loc_of_shr_record round_nearest_even Zdigits2].
  replace (e - 1 + 1) with e by lia.
  rewrite Hc, Z.sub_diag. cbn [shr shr_m].
  apply Z.leb_le in He. unfold prec, emax.
  change (1024 - 53) with 971. by rewrite He.
Qed.

Lemma SFdiv_one (s : bool) (m : positive) (e : Z) :
  bounded prec emax m e = true ->
  SF64div (S754_finite s m e) (S754_finite false 4503599627370496 (-52))
  = S754_finite s m e.
Proof.
  intros Hb. destruct (bounded_cases m e Hb) as (Hc & He & Hd).
  unfold SF64div, SFdiv, SFdiv_core_binary.
  replace (xorb s false) with s by (by destruct s).
  change (Zdigits2 (Zpos 4503599627370496)) with 53.
  cbn [Zdigits2].
  destruct Hd as [[Hmin Hd]|[Hmin Hd]].
  - match goal with |- context [Z.min ?a ?b] =>
      assert (Z.min a b = e) as -> by (unfold fexp, emin, prec, emax; lia)
    end.
    replace (e - -52 - e) with 52 by lia.
    rewrite Z.shiftl_mul_pow2 by lia.
    change (2 ^ 52) with 4503599627370496.
    rewrite div_eucl_exact by lia. rewrite new_location_exact.
    by apply binary_round_aux_canonical.
  - match goal with |- context [Z.min ?a ?b] =>
      assert (Z.min a b = e - 1) as ->
        by (unfold fexp, emin, prec, emax; lia)
    end.
    replace (e - -52 - (e - 1)) with 53 by lia.
    rewrite Z.shiftl_mul_pow2 by lia.
    change (2 ^ 53) with (2 * 4503599627370496).
    rewrite Z.mul_assoc, div_eucl_exact by lia. rewrite new_location_exact.
    rewrite (Z.mul_comm (Zpos m) 2). change (2 * Zpos m) with (Zpos (xO m)).
    by apply binary_round_aux_double.
Qed.

(** [x / 1.0] is [x], for every [double]. *)
Lemma float_div_one (x : float) : (x / 1 = x)%float.
Proof.
  apply Prim2SF_inj. rewrite FloatAxioms.div_spec.
  change (Prim2SF 1) with (S754_finite false 4503599627370496 (-52)).
  pose proof (Prim2SF_valid x) as Hv.
  destruct (Prim2SF x) as [[]|[]| |s m e]; try reflexivity.
  by apply SFdiv_one.
Qed.

(** *** Whole numbers below 2^53 are computed with exactly *)

Lemma digits2_pos_bounds (p : positive) :
  2 ^ (Zpos (digits2_pos p) - 1) <= Zpos p < 2 ^ Zpos (digits2_pos p).
Proof.
  induction p as [p IH|p IH|]; cbn [digits2_pos].
  - rewrite Pos2Z.inj_succ.
    replace (Z.succ (Zpos (digits2_pos p)) - 1) with (Z.succ (Zpos (digits2_pos p) - 1)) by lia.
    rewrite !Z.pow_succ_r by lia. lia.
  - rewrite Pos2Z.inj_succ.
    replace (Z.succ (Zpos (digits2_pos p)) - 1) with (Z.succ (Zpos (digits2_pos p) - 1)) by lia.
    rewrite !Z.pow_succ_r by lia. lia.
  - simpl. lia.
Qed.

Lemma digits2_pos_unique (p : positive) (d : Z) :
  2 ^ (d - 1) <= Zpos p < 2 ^ d -> Zpos (digits2_pos p) = d.
Proof.
  intros [Hlo Hhi]. pose proof (digits2_pos_bounds p) as [Hlo' Hhi'].
  assert (0 < d) as Hd.
  { destruct (Z.lt_trichotomy d 0) as [H|[H|H]]; [|subst; simpl in *; lia|done].
    rewrite Z.pow_neg_r in Hhi by done. lia. }
  destruct (Z.lt_trichotomy (Zpos (digits2_pos p)) d) as [H|[H|H]]; [|done|].
  - assert (2 ^ Zpos (digits2_pos p) <= 2 ^ (d - 1))
      by (apply Z.pow_le_mono_r; lia). lia.
  - assert (2 ^ d <= 2 ^ (Zpos (digits2_pos p) - 1))
      by (apply Z.pow_le_mono_r; lia). lia.
Qed.

Lemma digits2_pos_shift (p q : positive) (j : Z) :
  0 <= j -> Zpos q = Zpos p * 2 ^ j ->
  Zpos (digits2_pos q) = Zpos (digits2_pos p) + j.
Proof.
  intros Hj Hq. apply digits2_pos_unique. rewrite Hq.
  pose proof (digits2_pos_bounds p) as [Hlo Hhi].
  replace (Zpos (digits2_pos p) + j - 1) with (Zpos (digits2_pos p) - 1 + j)
    by lia.
  rewrite !Z.pow_add_r by lia.
  assert (0 < 2 ^ j) by (apply Z.pow_pos_nonneg; lia). nia.
Qed.

Lemma iter_xO_pow (m d : positive) :
  Zpos (Pos.iter xO m d) = Zpos m * 2 ^ Zpos d.
Proof.
  induction d as [|d IH] using Pos.peano_ind.
  - simpl. lia.
  - rewrite Pos.iter_succ, Pos2Z.inj_xO, IH, Pos2Z.inj_succ, Z.pow_succ_r by lia.
    lia.
Qed.

Lemma shr_1_even (z : Z) :
  0 < z ->
  shr_1 (Build_shr_record (2 * z) false false) = Build_shr_record z false false.
Proof. destruct z as [|p|p]; intros Hz; try lia. reflexivity. Qed.

(** Shifting out zero bits is exact. *)
Lemma iter_shr_1_exact (k : positive) (z : Z) :
  0 < z ->
  SpecFloat.iter_pos shr_1 k (Build_shr_record (z * 2 ^ Zpos k) false false)
  = Build_shr_record z false false.
Proof.
  revert z. induction k as [k IH|k IH|]; intros z Hz; cbn [SpecFloat.iter_pos].
  - replace (z * 2 ^ Zpos k~1) with (2 * ((z * 2 ^ Zpos k) * 2 ^ Zpos k)).
    + assert (0 < 2 ^ Zpos k) by (apply Z.pow_pos_nonneg; lia).
      rewrite shr_1_even by nia. rewrite IH by nia. by apply IH.
    + change (Zpos k~1) with (2 * Zpos k + 1).
      replace (2 * Zpos k + 1) with (Zpos k + Zpos k + 1) by lia.
      rewrite !Z.pow_add_r, Z.pow_1_r by lia. lia.
  - replace (z * 2 ^ Zpos k~0) with ((z * 2 ^ Zpos k) * 2 ^ Zpos k).
    + assert (0 < 2 ^ Zpos k) by (apply Z.pow_pos_nonneg; lia).
      rewrite IH by nia. by apply IH.
    + change (Zpos k~0) with (2 * Zpos k).
      replace (2 * Zpos k) with (Zpos k + Zpos k) by lia.
      rewrite !Z.pow_add_r by lia. lia.
  - rewrite Z.pow_1_r, (Z.mul_comm z 2). by apply shr_1_even.
Qed.

Lemma shr_fexp_exact (q M : positive) (e n : Z) :
  0 <= n -> Zpos q = Zpos M * 2 ^ n ->
  fexp prec emax (Zpos (digits2_pos q) + e) - e = n ->
  shr_fexp prec emax (Zpos q) e loc_Exact
  = (Build_shr_record (Zpos M) false false, e + n).
Proof.
  intros Hn Hq Hs. unfold shr_fexp. cbn [Zdigits2]. rewrite Hs.
  cbn [shr_record_of_loc]. unfold shr. destruct n as [|k|k]; [| |lia].
  - rewrite Z.pow_0_r, Z.mul_1_r in Hq. rewrite Hq, Z.add_0_r. reflexivity.
  - rewrite Hq, iter_shr_1_exact by lia. reflexivity.
Qed.

(** Rounding a mantissa whose low [n] bits are zero and whose other bits
    are a canonical mantissa [M]. *)
Lemma binary_round_aux_exact (s : bool) (q M : positive) (e n : Z) :
  0 <= n -> Zpos q = Zpos M * 2 ^ n ->
  fexp prec emax (Zpos (digits2_pos q) + e) - e = n ->
  bounded prec emax M (e + n) = true ->
  binary_round_aux prec emax s (Zpos q) e loc_Exact = S754_finite s M (e + n).
Proof.
  intros Hn Hq Hs Hb. destruct (bounded_cases M (e + n) Hb) as (Hc & He & _).
  unfold binary_round_aux.
  rewrite (shr_fexp_exact q M e n Hn Hq Hs).
  cbn [shr_m loc_of_shr_record round_nearest_even].
  rewrite (shr_fexp_canonical M (e + n) loc_Exact Hc).
  cbn [shr_record_of_loc shr_m].
  apply Z.leb_le in He. unfold prec, emax. change (1024 - 53) with 971.
  by rewrite He.
Qed.

Lemma whole_mantissa (p : positive) :
  Zpos (digits2_pos p) <= 53 ->
  Zpos (Z.to_pos (Zpos p * 2 ^ (53 - Zpos (digits2_pos p))))
  = Zpos p * 2 ^ (53 - Zpos (digits2_pos p)).
Proof.
  intros Hd. apply Z2Pos.id.
  assert (0 < 2 ^ (53 - Zpos (digits2_pos p))) by (apply Z.pow_pos_nonneg; lia).
  nia.
Qed.

Lemma whole_bounded (p : positive) :
  Zpos (digits2_pos p) <= 53 ->
  bounded prec emax (Z.to_pos (Zpos p * 2 ^ (53 - Zpos (digits2_pos p))))
    (Zpos (digits2_pos p) - 53) = true.
Proof.
  intros Hd. unfold bounded, canonical_mantissa.
  rewrite (digits2_pos_shift p _ (53 - Zpos (digits2_pos p)))
    by (lia || by apply whole_mantissa).
  apply andb_true_intro. split.
  - apply Z.eqb_eq. unfold fexp, emin, prec, emax. lia.
  - apply Z.leb_le. unfold prec, emax. lia.
Qed.

(** Rounding [p * 2^j] at exponent [-j], a whole number of at most 53
    bits given with at least 53 bits. *)
Lemma binary_round_aux_whole (q p : positive) (e : Z) :
  Zpos (digits2_pos p) <= 53 -> 53 - Zpos (digits2_pos p) <= - e ->
  Zpos q = Zpos p * 2 ^ (- e) ->
  binary_round_aux prec emax false (Zpos q) e loc_Exact = whole (Zpos p).
Proof.
  intros Hd He Hq. cbn [whole].
  set (d := Zpos (digits2_pos p)) in *.
  set (n := - e - (53 - d)).
  pose proof (whole_mantissa p Hd) as HM. fold d in HM.
  replace (d - 53) with (e + n) by (subst n; lia).
  apply binary_round_aux_exact.
  - subst n. lia.
  - rewrite HM, Hq, <- Z.mul_assoc, <- Z.pow_add_r by (subst n; lia).
    do 2 f_equal. subst n. lia.
  - rewrite (digits2_pos_shift p q (- e)) by (lia || done). fold d.
    unfold fexp, emin, prec, emax. subst n. lia.
  - replace (e + n) with (d - 53) by (subst n; lia).
    by apply whole_bounded.
Qed.

Lemma binary_round_whole (q p : positive) (j : Z) :
  0 <= j -> Zpos (digits2_pos p) <= 53 ->
  Zpos q = Zpos p * 2 ^ j ->
  binary_round prec emax false q (- j) = whole (Zpos p).
Proof.
  intros Hj Hd Hq. unfold binary_round, shl_align.
  rewrite (digits2_pos_shift p q j Hj Hq).
  set (d := Zpos (digits2_pos p)) in *.
  assert (fexp prec emax (d + j + - j) = d - 53) as ->
    by (unfold fexp, emin, prec, emax; subst d; lia).
  destruct (d - 53 - - j) as [|n|n] eqn:Hn.
  - apply binary_round_aux_whole; [done|fold d; lia|].
    by rewrite Z.opp_involutive.
  - apply binary_round_aux_whole; [done|fold d; lia|].
    by rewrite Z.opp_involutive.
  - apply binary_round_aux_whole; [done|fold d; lia|].
    rewrite iter_xO_pow, Hq, <- Z.mul_assoc, <- Z.pow_add_r by lia.
    do 2 f_equal. lia.
Qed.

Lemma Prim2SF_float_of_Z (k : Z) :
  0 <= k < 2 ^ 53 -> Prim2SF (float_of_Z k) = whole k.
Proof.
  intros [H0 Hk]. unfold float_of_Z. destruct (Z.ltb_spec k 0); [lia|].
  rewrite of_uint63_spec, Uint63.of_Z_spec, Z.mod_small
    by (change wB with (2 ^ 63); lia).
  destruct k as [|p|p]; [reflexivity| |lia].
  cbn [binary_normalize].
  apply (binary_round_whole p p 0); [lia| |lia].
  pose proof (digits2_pos_bounds p) as [Hlo _].
  destruct (Z.le_gt_cases (Zpos (digits2_pos p)) 53) as [|Hgt]; [done|].
  assert (2 ^ 53 <= 2 ^ (Zpos (digits2_pos p) - 1))
    by (apply Z.pow_le_mono_r; lia). lia.
Qed.

Lemma digits2_pos_le (p : positive) (D : Z) :
  Zpos p < 2 ^ D -> Zpos (digits2_pos p) <= D.
Proof.
  intros Hp. pose proof (digits2_pos_bounds p) as [Hlo _].
  destruct (Z.le_gt_cases (Zpos (digits2_pos p)) D) as [|Hgt]; [done|].
  assert (2 ^ D <= 2 ^ (Zpos (digits2_pos p) - 1)) as Hpow.
  { destruct (Z.lt_ge_cases D 0) as [Hneg|Hpos].
    - rewrite Z.pow_neg_r in Hp by done. lia.
    - apply Z.pow_le_mono_r; lia. }
  lia.
Qed.

Lemma shl_align_whole (p : positive) (e' : Z) :
  Zpos (digits2_pos p) <= 53 -> e' <= Zpos (digits2_pos p) - 53 ->
  Zpos (fst (shl_align
               (Z.to_pos (Zpos p * 2 ^ (53 - Zpos (digits2_pos p))))
               (Zpos (digits2_pos p) - 53) e'))
  = Zpos p * 2 ^ (- e').
Proof.
  intros Hd He. unfold shl_align.
  set (d := Zpos (digits2_pos p)) in *.
  destruct (e' - (d - 53)) as [|n|n] eqn:Hn; cbn [fst]; [|lia|].
  - rewrite whole_mantissa by done. fold d. do 2 f_equal. lia.
  - rewrite iter_xO_pow, whole_mantissa by done. fold d.
    rewrite <- Z.mul_assoc, <- Z.pow_add_r by lia. do 2 f_equal. lia.
Qed.

(** The sum of two whole numbers, when it is below 2^53, is computed
    exactly. *)
Lemma SFadd_whole (a b : Z) :
  0 <= a -> 0 <= b -> a + b < 2 ^ 53 ->
  SF64add (whole a) (whole b) = whole (a + b).
Proof.
  intros Ha Hb Hab.
  destruct a as [|pa|pa]; [|clear Ha|lia].
  { destruct b as [|pb|pb]; [reflexivity|reflexivity|lia]. }
  destruct b as [|pb|pb]; [|clear Hb|lia].
  { rewrite Z.add_0_r. reflexivity. }
  assert (Zpos (digits2_pos pa) <= 53) as Hda by (apply digits2_pos_le; lia).
  assert (Zpos (digits2_pos pb) <= 53) as Hdb by (apply digits2_pos_le; lia).
  assert (Zpos (digits2_pos (pa + pb)) <= 53) as Hdab
    by (apply digits2_pos_le; lia).
  change (Zpos pa + Zpos pb) with (Zpos (pa + pb)).
  unfold SF64add, SFadd. cbn [whole cond_Zopp].
  set (ez := Z.min (Zpos (digits2_pos pa) - 53) (Zpos (digits2_pos pb) - 53)).
  pose proof (shl_align_whole pa ez Hda ltac:(lia)) as HA.
  pose proof (shl_align_whole pb ez Hdb ltac:(lia)) as HB.
  set (A := fst (shl_align _ (Zpos (digits2_pos pa) - 53) ez)) in *.
  set (B := fst (shl_align _ (Zpos (digits2_pos pb) - 53) ez)) in *.
  change (Zpos A + Zpos B) with (Zpos (A + B)).
  cbn [binary_normalize].
  replace ez with (- - ez) at 1 by lia.
  apply binary_round_whole; [lia|done|].
  rewrite !Pos2Z.inj_add, HA, HB. lia.
Qed.

Lemma float_add_whole (a b : Z) :
  0 <= a -> 0 <= b -> a + b < 2 ^ 53 ->
  PrimFloat.add (float_of_Z a) (float_of_Z b) = float_of_Z (a + b).
Proof.
  intros Ha Hb Hab. apply Prim2SF_inj.
  rewrite FloatAxioms.add_spec, !Prim2SF_float_of_Z by lia.
  by apply SFadd_whole.
Qed.

(** A whole number of milliseconds, given in ticks, converts exactly. *)
Lemma SFdiv_whole (k : Z) :
  0 <= k -> k * 1000000 < 2 ^ 53 ->
  SF64div (whole (k * 1000000)) (S754_finite false 8589934592000000 (-33))
  = whole k.
Proof.
  intros Hk Hb. destruct k as [|p|p]; [reflexivity| |lia].
  change (Zpos p * 1000000) with (Zpos (p * 1000000)) in *.
  set (pn := (p * 1000000)%positive) in *.
  assert (Zpos pn = Zpos p * 1000000) as Hpn by reflexivity.
  assert (Zpos (digits2_pos pn) <= 53) as Hdn by (apply digits2_pos_le; lia).
  assert (Zpos (digits2_pos p) <= 53) as Hdp by (apply digits2_pos_le; lia).
  assert (Zpos (digits2_pos pn) <= Zpos (digits2_pos p) + 20) as Hdd.
  { apply digits2_pos_le. rewrite Z.pow_add_r by lia.
    pose proof (digits2_pos_bounds p) as [_ Hhi].
    change (2 ^ 20) with 1048576. lia. }
  unfold SF64div, SFdiv, SFdiv_core_binary. cbn [whole xorb].
  set (dn := Zpos (digits2_pos pn)) in *.
  set (Mn := Z.to_pos (Zpos pn * 2 ^ (53 - dn))).
  assert (Zpos Mn = Zpos pn * 2 ^ (53 - dn)) as HMn
    by (by apply whole_mantissa).
  cbn [Zdigits2].
  rewrite (digits2_pos_shift pn Mn (53 - dn)) by (lia || done). fold dn.
  change (Zpos (digits2_pos 8589934592000000)) with 53.
  match goal with |- context [Z.min ?x ?y] =>
    assert (Z.min x y = dn - 73) as ->
      by (unfold fexp, emin, prec, emax; lia)
  end.
  replace (dn - 53 - -33 - (dn - 73)) with 53 by lia.
  rewrite Z.shiftl_mul_pow2 by lia.
  replace (Zpos Mn * 2 ^ 53)
    with (Zpos p * 2 ^ (73 - dn) * 8589934592000000).
  2:{ rewrite HMn, Hpn.
      replace (2 ^ (73 - dn)) with (2 ^ (53 - dn) * 2 ^ 20)
        by (rewrite <- Z.pow_add_r by lia; f_equal; lia).
      change (2 ^ 20) with 1048576. change (2 ^ 53) with 9007199254740992.
      lia. }
  rewrite div_eucl_exact by lia. rewrite new_location_exact.
  assert (0 < Zpos p * 2 ^ (73 - dn)) as Hq.
  { assert (0 < 2 ^ (73 - dn)) by (apply Z.pow_pos_nonneg; lia). nia. }
  rewrite <- (Z2Pos.id _ Hq).
  apply binary_round_aux_whole; [done|lia|].
  rewrite Z2Pos.id by done. do 2 f_equal. lia.
Qed.

Lemma to_duration_whole (k : Z) :
  0 <= k -> k * ticks_per_milli < 2 ^ 53 ->
  to_duration (D:=float) (k * ticks_per_milli) = float_of_Z k.
Proof.
  intros Hk Hb. unfold ticks_per_milli in *. apply Prim2SF_inj.
  unfold to_duration. cbn [d_div d_of_Z binary64].
  rewrite FloatAxioms.div_spec, Prim2SF_ticks_per_milli.
  rewrite !Prim2SF_float_of_Z by lia.
  by apply SFdiv_whole.
Qed.

(** ** Whole milliseconds are accumulated without rounding *)

Lemma sum_alter (k : Z) (i : nat) (zs : list Z) :
  (i < length zs)%nat ->
  foldr Z.add 0 (alter (fun z => z + k) i zs) = foldr Z.add 0 zs + k.
Proof.
  revert i. induction zs as [|z zs IH]; intros i Hi; simpl in Hi; [lia|].
  destruct i as [|i].
  - simpl. lia.
  - change (foldr Z.add 0 (alter (fun z => z + k) (S i) (z :: zs)))
      with (z + foldr Z.add 0 (alter (fun z => z + k) i zs)).
    rewrite IH by lia. simpl. lia.
Qed.

Lemma sum_nonnegative (zs : list Z) :
  Forall (fun z => 0 <= z) zs -> 0 <= foldr Z.add 0 zs.
Proof. induction 1; simpl; lia. Qed.

Lemma sum_lookup_le (zs : list Z) (i : nat) (m : Z) :
  Forall (fun z => 0 <= z) zs -> zs !! i = Some m -> m <= foldr Z.add 0 zs.
Proof.
  intros Hzs. revert i. induction Hzs as [|z zs Hz Hzs IH]; intros i Hi.
  - discriminate.
  - pose proof (sum_nonnegative zs Hzs). destruct i as [|i]; simpl in *.
    + injection Hi as ->. lia.
    + specialize (IH i Hi). lia.
Qed.

(** The sum of whole numbers, taken in [double]s from the left, is their
    sum as long as that is below 2^53. *)
Lemma foldl_whole (zs : list Z) (a : Z) :
  Forall (fun z => 0 <= z) zs -> 0 <= a -> a + foldr Z.add 0 zs < 2 ^ 53 ->
  foldl PrimFloat.add (float_of_Z a) (map float_of_Z zs)
  = float_of_Z (a + foldr Z.add 0 zs).
Proof.
  intros Hzs. revert a. induction Hzs as [|z zs Hz Hzs IH]; intros a Ha Hb.
  - simpl. f_equal. lia.
  - pose proof (sum_nonnegative zs Hzs). cbn [map foldl foldr] in *.
    rewrite float_add_whole by lia. rewrite IH by lia. f_equal. lia.
Qed.

(** A transition a whole number of milliseconds after the last one keeps
    whole numbers in the slots. *)
Lemma whole_ms_call n t1 s now (p : TimeProfiler.t float) ms :
  whole_ms n t1 p ms ->
  (stage_index (TimeProfiler.m_eStage p) < n)%nat ->
  (n <= TimeProfiler.m_numStages)%nat ->
  TimeProfiler.m_previous p <= now ->
  (ticks_per_milli | now - TimeProfiler.m_previous p) ->
  now - t1 < 2 ^ 53 ->
  whole_ms n t1 (TimeProfiler.call s now p)
    (alter (fun z => z + (now - TimeProfiler.m_previous p) / ticks_per_milli)
           (stage_index (TimeProfiler.m_eStage p)) ms).
Proof.
  intros (Hwf & Hms & Hnn & Hsum) Hi Hn Hle [k Hk] Hb.
  assert (Hlen : length ms = n).
  { rewrite <- (length_map float_of_Z), <- Hms, length_take, Hwf. lia. }
  assert (Hq : (now - TimeProfiler.m_previous p) / ticks_per_milli = k).
  { rewrite Hk. apply Z.div_mul. discriminate. }
  assert (Hk0 : 0 <= k).
  { unfold ticks_per_milli in Hk. lia. }
  pose proof (sum_nonnegative ms Hnn) as Hs0.
  assert (Hsk : (foldr Z.add 0 ms + k) * ticks_per_milli = now - t1) by lia.
  assert (Hskb : foldr Z.add 0 ms + k < 2 ^ 53).
  { unfold ticks_per_milli in Hsk. lia. }
  rewrite Hq. split; [by apply wf_call|]. split; [|split].
  - cbn [TimeProfiler.call TimeProfiler.durations].
    unfold TimeProfiler.slot_add. rewrite take_alter_lt by done.
    rewrite Hms, Hk. unfold map. symmetry. apply list_fmap_alter.
    rewrite Forall_lookup. intros j m Hj. cbn beta.
    rewrite to_duration_whole; [|done|unfold ticks_per_milli in *; lia].
    symmetry. apply float_add_whole; [|done|].
    + rewrite Forall_lookup in Hnn. by apply (Hnn j).
    + pose proof (sum_lookup_le ms j m Hnn Hj). lia.
  - apply Forall_alter; [done|]. intros m _ Hm. lia.
  - rewrite sum_alter by lia. cbn [TimeProfiler.call TimeProfiler.m_previous].
    exact Hsk.
Qed.

(** With whole numbers of milliseconds in the first [n] slots, these sum
    to the time they add up to. *)
Lemma whole_ms_accumulate n t1 (p : TimeProfiler.t float) ms :
  whole_ms n t1 p ms ->
  TimeProfiler.m_previous p - t1 < 2 ^ 53 ->
  TimeProfiler.accumulate (take n (TimeProfiler.durations p)) d_zero
  = to_duration (TimeProfiler.m_previous p - t1).
Proof.
  intros (Hwf & Hms & Hnn & Hsum) Hb.
  pose proof (sum_nonnegative ms Hnn) as Hs0.
  unfold TimeProfiler.accumulate.
  rewrite Hms, <- Hsum.
  rewrite to_duration_whole; [|done|lia].
  change (d_zero (D:=float)) with (float_of_Z 0).
  change (@d_add float binary64) with PrimFloat.add.
  rewrite foldl_whole; [reflexivity|done|lia|].
  unfold ticks_per_milli in *. lia.
Qed.

Lemma paced_le t cs c : paced t (cs ++ [c]) -> t <= snd c.
Proof.
  revert t. induction cs as [|c' cs IH]; intros t; simpl.
  - tauto.
  - intros (Hle & _ & Hcs). specialize (IH _ Hcs). lia.
Qed.

(** Transitions a whole number of milliseconds apart, while stages of the
    first [n] slots are active: these slots hold whole numbers that sum to
    the time since [t1]. *)
Lemma whole_ms_calls n t1 mid c (p : TimeProfiler.t float) ms :
  (n <= TimeProfiler.m_numStages)%nat ->
  whole_ms n t1 p ms ->
  (stage_index (TimeProfiler.m_eStage p) < n)%nat ->
  Forall (fun c => (stage_index (fst c) < n)%nat) mid ->
  paced (TimeProfiler.m_previous p) (mid ++ [c]) ->
  snd c - t1 < 2 ^ 53 ->
  exists ms',
    whole_ms n t1 (TimeProfiler.calls (mid ++ [c]) p) ms'
    /\ TimeProfiler.m_previous (TimeProfiler.calls (mid ++ [c]) p) = snd c.
Proof.
  intros Hn.
  revert p ms. induction mid as [|c' mid IH]; intros p ms Hinv Hst Hmid Hp Hb.
  - destruct Hp as (Hle & Hdiv & _). eexists. split; [|reflexivity].
    exact (whole_ms_call _ t1 (fst c) (snd c) p ms Hinv Hst Hn Hle Hdiv Hb).
  - apply Forall_cons in Hmid as [Hc' Hmid].
    destruct Hp as (Hle & Hdiv & Hp).
    pose proof (paced_le _ _ _ Hp) as Hlast.
    assert (Hb' : snd c' - t1 < 2 ^ 53) by lia.
    pose proof (whole_ms_call _ t1 (fst c') (snd c') p ms Hinv Hst
                  Hn Hle Hdiv Hb') as Hinv'.
    exact (IH (TimeProfiler.call (fst c') (snd c') p) _ Hinv' Hc' Hmid Hp Hb).
Qed.

Lemma stage_index_tracked (s : STAGE) :
  s <> P_VOID -> (stage_index s < stage_index P_VOID)%nat.
Proof. intros Hs. destruct s; simpl; first [lia | by destruct Hs]. Qed.

(** ** The tracked total *)

Section TwoCalls.
Context {D : Type} {A : Arith D}.

(** After two transitions one slot has been charged once; the others hold
    the zeros of [init]. *)
Lemma counted_two_calls tc s1 t1 sN tN :
  s1 <> P_VOID ->
  TimeProfiler.counted
    (TimeProfiler.calls [ (s1, t1); (sN, tN) ] (TimeProfiler.new tc))
  = foldl d_add d_zero
      (alter (fun v => d_add v (to_duration (tN - t1))) (stage_index s1)
             (replicate (stage_index P_VOID) d_zero)).
Proof. intros Hs1. destruct s1; first [reflexivity | by destruct Hs1]. Qed.

End TwoCalls.

Lemma foldl_add_zeros (d : float) (n : nat) :
  not_negative (Prim2SF d) ->
  foldl PrimFloat.add d (replicate n 0%float) = d.
Proof.
  intros Hd. induction n as [|n IH]; [reflexivity|].
  cbn [replicate foldl]. rewrite (float_add_comm d 0), float_add_0_l by done.
  exact IH.
Qed.

(** The sum of zeros and one duration that is not negative is that
    duration. *)
Lemma foldl_add_single (d : float) (n i : nat) :
  not_negative (Prim2SF d) -> (i < n)%nat ->
  foldl PrimFloat.add 0%float
    (alter (fun v => PrimFloat.add v d) i (replicate n 0%float)) = d.
Proof.
  intros Hd. revert i. induction n as [|n IH]; intros i Hi; [lia|].
  destruct i as [|i].
  - change (foldl PrimFloat.add (0 + (0 + d))%float (replicate n 0%float) = d).
    rewrite (float_add_0_l d Hd), (float_add_0_l d Hd).
    by apply foldl_add_zeros.
  - change (foldl PrimFloat.add (0 + 0)%float
              (alter (fun v => PrimFloat.add v d) i (replicate n 0%float)) = d).
    change (0 + 0)%float with 0%float. apply IH. lia.
Qed.

(** After the first transition, at [t1], the slots of all stages but
    [P_VOID] hold zero. *)
Lemma whole_ms_first tc s1 t1 :
  whole_ms (stage_index P_VOID) t1
    (TimeProfiler.call s1 t1 (TimeProfiler.new tc))
    (replicate (stage_index P_VOID) 0).
Proof.
  split; [apply wf_call, wf_new|]. split; [reflexivity|].
  split; [by apply Forall_replicate|].
  cbn [TimeProfiler.call TimeProfiler.m_previous]. simpl. lia.
Qed.

(** C2, as stated, fails on the code: in double precision the slots hold
    rounded values and their sum is rounded again.  Four transitions at 0,
    0.1, 0.3 and 0.6 ms: the tracked total is 0.6000000000000001 ms, the
    elapsed time 0.6 ms. *)
Lemma conservation_fails_binary64 :
  let p : TimeProfiler.t float :=
    TimeProfiler.calls
      [ (P_NALU_SLICE_PIC_HL, 0); (P_CONTROL_PARSE_DERIVE_LL, 100000);
        (P_PARSERESIDUALS, 300000); (P_VOID, 600000) ]
      (TimeProfiler.new 0) in
  TimeProfiler.counted p = 0x1.3333333333334p-1%float
  /\ to_duration (600000 - 0) = 0x1.3333333333333p-1%float
  /\ TimeProfiler.counted p <> to_duration (600000 - 0)
  /\ d_eqb (TimeProfiler.counted p) (to_duration (600000 - 0)) = false.
Proof.
  vm_compute. repeat split; try reflexivity.
  intros H. apply (f_equal (fun x => PrimFloat.eqb x 0x1.3333333333333p-1)) in H.
  vm_compute in H. discriminate.
Qed.

(** C2, amended.  In double precision: after two calls of [operator()] on
    a new profiler, at [t1 <= tN], the first into a stage other than
    [P_VOID], the durations of all stages but [P_VOID] sum to the duration
    of [tN - t1].  After N >= 2 calls, none but the last making [P_VOID]
    the active stage, each a whole number of milliseconds after the one
    before, with less than 2^53 ticks from the first to the last, they sum
    to the duration of [tN - t1] as well. *)
Theorem conservation_binary64 :
  (forall (tc : time_point) (s1 : STAGE) (t1 : time_point)
          (sN : STAGE) (tN : time_point),
      s1 <> P_VOID -> t1 <= tN ->
      TimeProfiler.counted
        (TimeProfiler.calls [ (s1, t1); (sN, tN) ]
           (TimeProfiler.new (D:=float) tc))
      = to_duration (tN - t1))
  /\ (forall (tc : time_point) (s1 : STAGE) (t1 : time_point)
             (mid : list (STAGE * time_point)) (sN : STAGE) (tN : time_point),
        s1 <> P_VOID -> Forall (fun c => fst c <> P_VOID) mid ->
        paced t1 (mid ++ [ (sN, tN) ]) ->
        tN - t1 < 2 ^ 53 ->
        TimeProfiler.counted
          (TimeProfiler.calls ((s1, t1) :: mid ++ [ (sN, tN) ])
             (TimeProfiler.new (D:=float) tc))
        = to_duration (tN - t1)).
Proof.
  split.
  - intros tc s1 t1 sN tN Hs1 Hle.
    rewrite counted_two_calls by done.
    apply foldl_add_single.
    + apply to_duration_not_negative. lia.
    + by apply stage_index_tracked.
  - intros tc s1 t1 mid sN tN Hs1 Hmid Hp Hb.
    change (TimeProfiler.calls ((s1, t1) :: mid ++ [ (sN, tN) ])
              (TimeProfiler.new tc))
      with (TimeProfiler.calls (mid ++ [ (sN, tN) ])
              (TimeProfiler.call s1 t1 (TimeProfiler.new (D:=float) tc))).
    destruct (whole_ms_calls (stage_index P_VOID) t1 mid (sN, tN)
                (TimeProfiler.call s1 t1 (TimeProfiler.new tc))
                (replicate (stage_index P_VOID) 0))
      as (ms & Hinv & Hprev).
    + unfold TimeProfiler.m_numStages, P_VOID. lia.
    + apply whole_ms_first.
    + by apply stage_index_tracked.
    + eapply Forall_impl; [exact Hmid|]. intros c Hc.
      by apply stage_index_tracked.
    + exact Hp.
    + exact Hb.
    + pose proof (whole_ms_accumulate _ _ _ _ Hinv) as Hacc.
      rewrite Hprev in Hacc. cbn [snd] in Hacc.
      unfold TimeProfiler.counted. destruct Hinv as (Hwf & _).
      rewrite Hwf. by apply Hacc.
Qed.

(** Two transitions 0.2 ms apart; four transitions 2, 3 and 4 ms apart. *)
Lemma conservation_binary64_witness :
  TimeProfiler.counted
    (TimeProfiler.calls [ (P_SAO, 100000); (P_ALF, 300000) ]
       (TimeProfiler.new (D:=float) 0))
  = to_duration (300000 - 100000)
  /\ TimeProfiler.counted
       (TimeProfiler.calls
          ((P_NALU_SLICE_PIC_HL, 1000000)
           :: [ (P_CONTROL_PARSE_DERIVE_LL, 3000000);
                (P_PARSERESIDUALS, 6000000) ]
           ++ [ (P_VOID, 10000000) ])
          (TimeProfiler.new (D:=float) 0))
     = to_duration (10000000 - 1000000).
Proof.
  split.
  - apply (proj1 conservation_binary64); [discriminate|lia].
  - apply (proj2 conservation_binary64).
    + discriminate.
    + repeat constructor; discriminate.
    + simpl. repeat split; try lia.
      * by exists 2.
      * by exists 3.
      * by exists 4.
    + reflexivity.
Defined.

(** ** Merging: [operator+=] *)

(** Rational arithmetic rounds nothing. *)
Lemma rational_exact : ExactArith rational.
Proof.
  assert (Hinj : forall a b : Z,
             Q2Qc (inject_Z (a + b))
             = (Q2Qc (inject_Z a) + Q2Qc (inject_Z b))%Qc).
  { intros a b. apply Qc_is_canon. unfold Qcplus, Q2Qc, this.
    rewrite !Qred_correct, inject_Z_plus. reflexivity. }
  split.
  - apply Qcplus_comm.
  - apply Qcplus_assoc.
  - apply Qcplus_0_l.
  - apply Qc_is_canon. reflexivity.
  - intros a b. unfold to_duration. cbn [d_div d_of_Z d_add rational].
    rewrite Hinj. unfold Qcdiv. apply Qcmult_plus_distr_l.
Qed.

Section Merge.
Context {D : Type} {A : Arith D}.
Implicit Types (p a b c : TimeProfiler.t D) (l : list D).

Lemma add_all_nil_r l : TimeProfiler.add_all l [] = l.
Proof. by destruct l. Qed.

Lemma add_all_lookup l1 l2 i x y :
  l1 !! i = Some x -> l2 !! i = Some y ->
  TimeProfiler.add_all l1 l2 !! i = Some (d_add x y).
Proof.
  revert l2 i. induction l1 as [|x1 l1 IH]; intros [|y1 l2] [|i]; simpl;
    try discriminate.
  - by intros [= ->] [= ->].
  - apply IH.
Qed.

(** Past the end of the other vector the slots are left as they are. *)
Lemma add_all_lookup_ge l1 l2 i :
  (length l2 <= i)%nat -> TimeProfiler.add_all l1 l2 !! i = l1 !! i.
Proof.
  revert l2 i. induction l1 as [|x1 l1 IH]; intros [|y1 l2] [|i]; simpl;
    try reflexivity; try lia.
  intros Hi. apply IH. lia.
Qed.

Lemma add_all_comm l1 l2 :
  (forall x y : D, d_add x y = d_add y x) ->
  length l1 = length l2 ->
  TimeProfiler.add_all l1 l2 = TimeProfiler.add_all l2 l1.
Proof.
  intros Hcomm. revert l2.
  induction l1 as [|x l1 IH]; intros [|y l2]; simpl; try done.
  intros [= Hlen]. by rewrite Hcomm, IH.
Qed.

Lemma add_all_assoc l1 l2 l3 :
  (forall x y z : D, d_add x (d_add y z) = d_add (d_add x y) z) ->
  length l1 = length l2 ->
  TimeProfiler.add_all (TimeProfiler.add_all l1 l2) l3
  = TimeProfiler.add_all l1 (TimeProfiler.add_all l2 l3).
Proof.
  intros Hassoc. revert l2 l3.
  induction l1 as [|x l1 IH]; intros [|y l2] [|z l3]; simpl; try done.
  intros [= Hlen]. by rewrite Hassoc, IH.
Qed.

Lemma duration_at_add_assign s a b :
  TimeProfiler.wf a -> TimeProfiler.wf b ->
  TimeProfiler.duration_at s (TimeProfiler.add_assign b a)
  = d_add (TimeProfiler.duration_at s a) (TimeProfiler.duration_at s b).
Proof.
  intros Ha Hb. unfold TimeProfiler.duration_at at 1. simpl.
  erewrite add_all_lookup; [reflexivity| |]; by apply duration_at_lookup.
Qed.

End Merge.

(** C4, as stated, fails on the code: the addition of [double]s is not
    associative.  Three profilers that ran one stage for 0.1, 0.2 and
    0.3 ms, merged in the two groupings, differ in that stage's slot. *)
Lemma merge_not_associative_binary64 :
  let ran (ticks : Z) : TimeProfiler.t float :=
    TimeProfiler.call P_VOID ticks
      (TimeProfiler.start P_NALU_SLICE_PIC_HL 0 (TimeProfiler.new 0)) in
  let a := ran 100000 in
  let b := ran 200000 in
  let c := ran 300000 in
  TimeProfiler.duration_at P_NALU_SLICE_PIC_HL
    (TimeProfiler.add_assign c (TimeProfiler.add_assign b a))
  = 0x1.3333333333334p-1%float
  /\ TimeProfiler.duration_at P_NALU_SLICE_PIC_HL
       (TimeProfiler.add_assign (TimeProfiler.add_assign c b) a)
     = 0x1.3333333333333p-1%float
  /\ TimeProfiler.durations
       (TimeProfiler.add_assign c (TimeProfiler.add_assign b a))
     <> TimeProfiler.durations
          (TimeProfiler.add_assign (TimeProfiler.add_assign c b) a).
Proof.
  vm_compute. repeat split.
  intros H.
  apply (f_equal (fun l => match l with
                           | x :: _ => PrimFloat.eqb x 0x1.3333333333333p-1
                           | [] => true
                           end)) in H.
  vm_compute in H. discriminate.
Qed.

(** C4, amended.  [operator+=] adds the other profiler's durations slot by
    slot, whatever the arithmetic; on the durations it is commutative, in
    double precision as in exact arithmetic; it is associative when the
    addition of durations is, as in exact arithmetic. *)
Theorem merge_elementwise_commutative :
  (forall (D : Type) (A : Arith D) (a b : TimeProfiler.t D) (s : STAGE),
      TimeProfiler.wf a -> TimeProfiler.wf b ->
      TimeProfiler.duration_at s (TimeProfiler.add_assign b a)
      = d_add (TimeProfiler.duration_at s a) (TimeProfiler.duration_at s b))
  /\ (forall a b : TimeProfiler.t float,
        TimeProfiler.wf a -> TimeProfiler.wf b ->
        TimeProfiler.durations (TimeProfiler.add_assign b a)
        = TimeProfiler.durations (TimeProfiler.add_assign a b))
  /\ (forall (D : Type) (A : Arith D), ExactArith A ->
      forall a b c : TimeProfiler.t D,
        TimeProfiler.wf a -> TimeProfiler.wf b ->
        TimeProfiler.durations (TimeProfiler.add_assign b a)
        = TimeProfiler.durations (TimeProfiler.add_assign a b)
        /\ TimeProfiler.durations
             (TimeProfiler.add_assign c (TimeProfiler.add_assign b a))
           = TimeProfiler.durations
               (TimeProfiler.add_assign (TimeProfiler.add_assign c b) a)).
Proof.
  split; [|split].
  - intros D A a b s Ha Hb. by apply duration_at_add_assign.
  - intros a b Ha Hb. simpl. apply add_all_comm.
    + apply float_add_comm.
    + by rewrite Ha, Hb.
  - intros D A E a b c Ha Hb. simpl. split.
    + apply add_all_comm; [apply d_add_comm | by rewrite Ha, Hb].
    + apply add_all_assoc; [apply d_add_assoc | by rewrite Ha, Hb].
Qed.

Lemma merge_elementwise_commutative_witness :
  TimeProfiler.duration_at P_SAO
    (TimeProfiler.add_assign
       (TimeProfiler.call P_VOID 200000
          (TimeProfiler.start P_SAO 0 (TimeProfiler.new (D:=float) 0)))
       (TimeProfiler.call P_VOID 100000
          (TimeProfiler.start P_SAO 0 (TimeProfiler.new (D:=float) 0))))
  = d_add (to_duration 100000) (to_duration 200000).
Proof.
  refine (eq_trans
    (proj1 merge_elementwise_commutative float binary64
       (TimeProfiler.call P_VOID 100000
          (TimeProfiler.start P_SAO 0 (TimeProfiler.new 0)))
       (TimeProfiler.call P_VOID 200000
          (TimeProfiler.start P_SAO 0 (TimeProfiler.new 0)))
       P_SAO _ _) _); reflexivity.
Defined.

(** ** The extended profiler *)

Section Cells.
Context {D : Type} {A : Arith D}.
Implicit Types (p : TimeProfiler2D.t D) (cs : list (StatCounter2DSet.t D)).

Lemma cell_cell_add cs z s y x d :
  TimeProfiler2D.cell (TimeProfiler2D.cell_add z s y x d cs) z s y x
  = (fun v => d_add v d) <$> TimeProfiler2D.cell cs z s y x.
Proof.
  unfold TimeProfiler2D.cell, TimeProfiler2D.cell_add, StatCounter2DSet.t in *.
  rewrite list_lookup_alter_eq.
  destruct (cs !! z) as [set|]; simpl; [|reflexivity].
  rewrite list_lookup_alter_eq.
  destruct (set !! stage_index s) as [grid|]; simpl; [|reflexivity].
  rewrite list_lookup_alter_eq.
  destruct (grid !! y) as [row|]; simpl; [|reflexivity].
  apply list_lookup_alter_eq.
Qed.

Lemma cell_cell_add_ne cs z s y x d z' s' y' x' :
  (z', s', y', x') <> (z, s, y, x) ->
  TimeProfiler2D.cell (TimeProfiler2D.cell_add z s y x d cs) z' s' y' x'
  = TimeProfiler2D.cell cs z' s' y' x'.
Proof.
  intros Hne.
  unfold TimeProfiler2D.cell, TimeProfiler2D.cell_add, StatCounter2DSet.t in *.
  destruct (decide (z = z')) as [<-|Hz];
    [rewrite list_lookup_alter_eq | by rewrite list_lookup_alter_ne].
  destruct (cs !! z) as [set|]; simpl; [|reflexivity].
  destruct (decide (s = s')) as [<-|Hs];
    [rewrite list_lookup_alter_eq
    | rewrite list_lookup_alter_ne; [done|];
      intros Heq; by apply Hs, stage_index_inj].
  destruct (set !! stage_index s) as [grid|]; simpl; [|reflexivity].
  destruct (decide (y = y')) as [<-|Hy];
    [rewrite list_lookup_alter_eq | by rewrite list_lookup_alter_ne].
  destruct (grid !! y) as [row|]; simpl; [|reflexivity].
  apply list_lookup_alter_ne. congruence.
Qed.

Lemma count_Some s x y z now p v :
  TimeProfiler2D.cell (TimeProfiler2D.m_counters p) (TimeProfiler2D.m_curZ p)
    (TimeProfiler2D.m_stage p) (TimeProfiler2D.m_curY p)
    (TimeProfiler2D.m_curX p) = Some v ->
  TimeProfiler2D.count s x y z now p
  = Some (TimeProfiler2D.mk now (TimeProfiler2D.m_startTime p) s
            (TimeProfiler2D.m_numX p) (TimeProfiler2D.m_numY p)
            (TimeProfiler2D.m_numZ p) x y z
            (TimeProfiler2D.cell_add (TimeProfiler2D.m_curZ p)
               (TimeProfiler2D.m_stage p) (TimeProfiler2D.m_curY p)
               (TimeProfiler2D.m_curX p)
               (d_of_Z (now - TimeProfiler2D.m_previous p))
               (TimeProfiler2D.m_counters p))).
Proof. intros Hv. unfold TimeProfiler2D.count. by rewrite Hv. Qed.

Lemma count_charges s x y z now p v :
  let S0 := TimeProfiler2D.m_stage p in
  let x0 := TimeProfiler2D.m_curX p in
  let y0 := TimeProfiler2D.m_curY p in
  let z0 := TimeProfiler2D.m_curZ p in
  let t0 := TimeProfiler2D.m_previous p in
  TimeProfiler2D.cell (TimeProfiler2D.m_counters p) z0 S0 y0 x0 = Some v ->
  exists p',
    TimeProfiler2D.count s x y z now p = Some p'
    /\ TimeProfiler2D.cell (TimeProfiler2D.m_counters p') z0 S0 y0 x0
       = Some (d_add v (d_of_Z (now - t0)))
    /\ (forall z' s' y' x', (z', s', y', x') <> (z0, S0, y0, x0) ->
          TimeProfiler2D.cell (TimeProfiler2D.m_counters p') z' s' y' x'
          = TimeProfiler2D.cell (TimeProfiler2D.m_counters p) z' s' y' x')
    /\ TimeProfiler2D.curStage p' = s
    /\ TimeProfiler2D.curX p' = x /\ TimeProfiler2D.curY p' = y
    /\ TimeProfiler2D.curZ p' = z
    /\ TimeProfiler2D.m_previous p' = now.
Proof.
  intros S0 x0 y0 z0 t0 Hv.
  eexists. split; [by apply (count_Some _ _ _ _ _ _ v)|].
  cbn [TimeProfiler2D.m_counters TimeProfiler2D.curStage TimeProfiler2D.curX
       TimeProfiler2D.curY TimeProfiler2D.curZ TimeProfiler2D.m_stage
       TimeProfiler2D.m_curX TimeProfiler2D.m_curY TimeProfiler2D.m_curZ
       TimeProfiler2D.m_previous].
  split; [|split; [|done]].
  + rewrite cell_cell_add. fold S0 x0 y0 z0. by rewrite Hv.
  + intros z' s' y' x' Hne. by apply cell_cell_add_ne.
Qed.

End Cells.

(** C5.  [count] charges the interval since the last call to the cell of the
    key that was current before the call, leaves every other cell as it was,
    and makes its arguments the current key and the time read the last
    timestamp.  [count(A,1,2,0)] at 0 followed by [count(B,3,4,0)] at 5 ms
    charges the 5 ms (the cell holds the tick count, 5000000) to the cell
    (A, x=1, y=2, z=0) and nothing to (B, x=3, y=4, z=0). *)
Theorem count_charges_previous_key :
  (forall (D : Type) (A : Arith D) (p : TimeProfiler2D.t D) (s : STAGE)
          (x y z : nat) (now : time_point) (v : D),
      let S0 := TimeProfiler2D.m_stage p in
      let x0 := TimeProfiler2D.m_curX p in
      let y0 := TimeProfiler2D.m_curY p in
      let z0 := TimeProfiler2D.m_curZ p in
      let t0 := TimeProfiler2D.m_previous p in
      TimeProfiler2D.cell (TimeProfiler2D.m_counters p) z0 S0 y0 x0 = Some v ->
      exists p',
        TimeProfiler2D.count s x y z now p = Some p'
        /\ TimeProfiler2D.cell (TimeProfiler2D.m_counters p') z0 S0 y0 x0
           = Some (d_add v (d_of_Z (now - t0)))
        /\ (forall z' s' y' x', (z', s', y', x') <> (z0, S0, y0, x0) ->
              TimeProfiler2D.cell (TimeProfiler2D.m_counters p') z' s' y' x'
              = TimeProfiler2D.cell (TimeProfiler2D.m_counters p) z' s' y' x')
        /\ TimeProfiler2D.curStage p' = s
        /\ TimeProfiler2D.curX p' = x /\ TimeProfiler2D.curY p' = y
        /\ TimeProfiler2D.curZ p' = z
        /\ TimeProfiler2D.m_previous p' = now)
  /\ (forall tc : time_point,
        exists p1 p2 : TimeProfiler2D.t float,
          TimeProfiler2D.count P_INTRAPRED 1 2 0 0
            (TimeProfiler2D.new 4 5 1 tc) = Some p1
          /\ TimeProfiler2D.count P_MOTCOMP 3 4 0 (5 * ticks_per_milli) p1
             = Some p2
          /\ TimeProfiler2D.cell (TimeProfiler2D.m_counters p2) 0 P_INTRAPRED 2 1
             = Some 5000000%float
          /\ TimeProfiler2D.cell (TimeProfiler2D.m_counters p2) 0 P_MOTCOMP 4 3
             = Some 0%float).
Proof.
  split.
  - intros D A p s x y z now v. apply count_charges.
  - intros tc. eexists. eexists.
    split; [reflexivity|]. split; [reflexivity|].
    split; reflexivity.
Qed.

Lemma count_charges_previous_key_witness :
  exists p',
    TimeProfiler2D.count P_ALF 1 0 0 9 (TimeProfiler2D.new (D:=float) 2 2 1 4)
    = Some p'
    /\ TimeProfiler2D.cell (TimeProfiler2D.m_counters p') 0 P_VOID 0 0
       = Some (d_add d_zero (d_of_Z (9 - 4))).
Proof.
  destruct (proj1 count_charges_previous_key float binary64
              (TimeProfiler2D.new 2 2 1 4) P_ALF 1%nat 0%nat 0%nat 9 d_zero
              eq_refl) as (p' & Hc & Hv & _).
  exists p'. split; [exact Hc | exact Hv].
Defined.

(** ** [stop] *)

(** C6.  [TimeProfiler::stop] charges the open interval to the active stage
    as [operator()] does and leaves the active stage, but it does not set
    [m_previous]: the state differs from the one a transition into the
    active stage gives, and the next transition charges the same interval a
    second time.  [TimeProfiler2D::stop] is [count] on the current key and
    does set [m_previous]. *)
Theorem stop_keeps_previous :
  (forall (D : Type) (A : Arith D) (p : TimeProfiler.t D) (s : STAGE)
          (now : time_point),
      let q := TimeProfiler.call (TimeProfiler.curStage p) now p in
      TimeProfiler.durations (TimeProfiler.stop s now p)
      = TimeProfiler.durations q
      /\ TimeProfiler.m_eStage (TimeProfiler.stop s now p)
         = TimeProfiler.m_eStage q
      /\ TimeProfiler.m_previous (TimeProfiler.stop s now p)
         = TimeProfiler.m_previous p
      /\ TimeProfiler.m_previous q = now)
  /\ (let p : TimeProfiler.t float :=
        TimeProfiler.start P_SAO 0 (TimeProfiler.new 0) in
      let now := 5 * ticks_per_milli in
      TimeProfiler.stop P_SAO now p
      <> TimeProfiler.call (TimeProfiler.curStage p) now p
      /\ TimeProfiler.duration_at P_SAO
           (TimeProfiler.call P_VOID now (TimeProfiler.stop P_SAO now p))
         = 10%float
      /\ TimeProfiler.duration_at P_SAO
           (TimeProfiler.call P_VOID now
              (TimeProfiler.call (TimeProfiler.curStage p) now p))
         = 5%float)
  /\ (forall (D : Type) (A : Arith D) (p : TimeProfiler2D.t D) (s : STAGE)
             (now : time_point) (p' : TimeProfiler2D.t D),
        TimeProfiler2D.stop s now p = Some p' ->
        TimeProfiler2D.m_previous p' = now).
Proof.
  split; [|split].
  - intros D A p s now q. by repeat split.
  - cbv zeta. split; [|split; vm_compute; reflexivity].
    intros H. apply (f_equal TimeProfiler.m_previous) in H.
    vm_compute in H. discriminate.
  - intros D A p s now p'. unfold TimeProfiler2D.stop, TimeProfiler2D.count.
    destruct (TimeProfiler2D.cell _ _ _ _ _); [|discriminate].
    by intros [= <-].
Qed.

(** C10.  The argument of [stop] is not read: two calls that differ in it
    only give the same state, for the scalar and for the extended profiler.
    The interval goes to the stage (to the key) that is active, which stays
    active. *)
Theorem stop_ignores_argument :
  forall (D : Type) (A : Arith D),
    (forall (p : TimeProfiler.t D) (s1 s2 : STAGE) (now : time_point),
        TimeProfiler.stop s1 now p = TimeProfiler.stop s2 now p)
    /\ (forall (p : TimeProfiler2D.t D) (s1 s2 : STAGE) (now : time_point),
          TimeProfiler2D.stop s1 now p = TimeProfiler2D.stop s2 now p)
    /\ (forall (p : TimeProfiler.t D) (s : STAGE) (now : time_point),
          TimeProfiler.wf p ->
          let S0 := TimeProfiler.m_eStage p in
          let p' := TimeProfiler.stop s now p in
          TimeProfiler.duration_at S0 p'
          = d_add (TimeProfiler.duration_at S0 p)
                  (to_duration (now - TimeProfiler.m_previous p))
          /\ (forall s', s' <> S0 ->
                TimeProfiler.duration_at s' p' = TimeProfiler.duration_at s' p)
          /\ TimeProfiler.curStage p' = S0)
    /\ (forall (p : TimeProfiler2D.t D) (s : STAGE) (now : time_point) (v : D),
          let S0 := TimeProfiler2D.m_stage p in
          let x0 := TimeProfiler2D.m_curX p in
          let y0 := TimeProfiler2D.m_curY p in
          let z0 := TimeProfiler2D.m_curZ p in
          TimeProfiler2D.cell (TimeProfiler2D.m_counters p) z0 S0 y0 x0
          = Some v ->
          exists p',
            TimeProfiler2D.stop s now p = Some p'
            /\ TimeProfiler2D.cell (TimeProfiler2D.m_counters p') z0 S0 y0 x0
               = Some (d_add v (d_of_Z (now - TimeProfiler2D.m_previous p)))
            /\ (TimeProfiler2D.curStage p', TimeProfiler2D.curX p',
                TimeProfiler2D.curY p', TimeProfiler2D.curZ p')
               = (S0, x0, y0, z0)).
Proof.
  intros D A. split; [done|]. split; [done|]. split.
  - intros p s now Hwf S0 p'. split; [|split; [|done]].
    + apply (duration_at_call_active S0 now p Hwf).
    + intros s' Hne. by apply (duration_at_call_other S0 s' now p).
  - intros p s now v S0 x0 y0 z0 Hv.
    destruct (count_charges S0 x0 y0 z0 now p v Hv)
      as (p' & Hc & Hcell & _ & Hs & Hx & Hy & Hz & _).
    exists p'. split; [exact Hc|]. split; [exact Hcell|]. congruence.
Qed.

Lemma stop_ignores_argument_witness :
  TimeProfiler.duration_at P_VOID
    (TimeProfiler.stop P_ALF 7 (TimeProfiler.new (D:=float) 2))
  = d_add (TimeProfiler.duration_at P_VOID (TimeProfiler.new (D:=float) 2))
          (to_duration (7 - 2)).
Proof.
  refine (proj1 (proj1 (proj2 (proj2 (stop_ignores_argument float binary64)))
                   (TimeProfiler.new 2) P_ALF 7 _)).
  reflexivity.
Defined.

(** ** The report: [operator<<] *)

Section Report.
Context {D : Type} {A : Arith D}.
Implicit Types (p : TimeProfiler.t D) (os : list (item D)).

Lemma print_stage_app p os i :
  TimeProfiler.print_stage p os i = os ++ TimeProfiler.print_stage p [] i.
Proof.
  unfold TimeProfiler.print_stage.
  destruct (TimeProfiler.durations p !! i) as [v|];
    [destruct (negb _)|]; by rewrite ?app_nil_r.
Qed.

Lemma foldl_print_stage p os (idx : list nat) :
  foldl (TimeProfiler.print_stage p) os idx
  = os ++ flat_map (TimeProfiler.print_stage p []) idx.
Proof.
  revert os. induction idx as [|i idx IH]; intros os; simpl.
  - by rewrite app_nil_r.
  - rewrite IH, print_stage_app. by rewrite <- app_assoc.
Qed.

(** The sum the code takes over all slots but the last is the sum over the
    stages of the registry without [P_VOID]. *)
Lemma counted_trackedTotal p :
  TimeProfiler.wf p -> TimeProfiler.counted p = Reporter.trackedTotal p.
Proof.
  destruct p as [prev st t0 l]. unfold TimeProfiler.wf. simpl. intros Hlen.
  do 13 (destruct l as [|? l]; try discriminate). reflexivity.
Qed.

(** What the code inserts: the heading, what the loop inserts for each
    index below [P_STAGES], an empty line and the [TOTAL] row. *)
Lemma print_rows os p :
  TimeProfiler.print os p
  = os ++ Reporter.heading
    ++ flat_map (TimeProfiler.print_stage p [])
         (map stage_index Reporter.real_stages)
    ++ [ Chr newline ]
    ++ [ Str " "; Str "TOTAL";
         Dur (d_div (TimeProfiler.counted p) TimeProfiler.scale);
         Dbl (d_of_Z 100); Chr newline ].
Proof.
  unfold TimeProfiler.print. rewrite foldl_print_stage.
  change (seq 0 (stage_index P_STAGES))
    with (map stage_index Reporter.real_stages).
  unfold Reporter.heading. rewrite <- !app_assoc. reflexivity.
Qed.

End Report.

(** The table of names holds, at the index of a stage, its identifier. *)
Lemma stageNames_lookup (s : STAGE) :
  stageNames !! stage_index s = Some (Reporter.stage_name s).
Proof. by destruct s. Qed.

Section ReportBinary64.
Implicit Types (p : TimeProfiler.t float).

(** For a stage, the loop inserts the row of the contract: over the unit
    scale the duration is unchanged. *)
Lemma print_stage_row p s :
  TimeProfiler.wf p ->
  TimeProfiler.print_stage p [] (stage_index s) = Reporter.stage_row p s.
Proof.
  intros Hwf. unfold TimeProfiler.print_stage, Reporter.stage_row.
  rewrite duration_at_lookup by done.
  rewrite counted_trackedTotal by done. rewrite stageNames_lookup.
  cbn [default d_div binary64 app Reporter.row].
  change (TimeProfiler.scale (D:=float)) with 1%float.
  by rewrite float_div_one.
Qed.

Lemma print_stage_rows p (ss : list STAGE) :
  TimeProfiler.wf p ->
  flat_map (TimeProfiler.print_stage p []) (map stage_index ss)
  = flat_map (Reporter.stage_row p) ss.
Proof.
  intros Hwf. induction ss as [|s ss IH]; simpl; [reflexivity|].
  by rewrite IH, print_stage_row.
Qed.

Lemma print_report os p :
  TimeProfiler.wf p -> TimeProfiler.print os p = os ++ Reporter.report p.
Proof.
  intros Hwf. rewrite print_rows, print_stage_rows by done.
  unfold Reporter.report, Reporter.row.
  rewrite counted_trackedTotal by done.
  cbn [d_div binary64].
  change (TimeProfiler.scale (D:=float)) with 1%float.
  by rewrite float_div_one.
Qed.

End ReportBinary64.

(** C7.  In double precision, on the output so far, [operator<<] appends
    the report of the contract: a heading; for every stage of the registry
    but [P_VOID], in registry order, that has a nonzero duration, one row
    with the stage's name, its duration and its duration over the tracked
    total times 100, and no row for a stage whose duration is zero; an
    empty line; the [TOTAL] row with the tracked total and 100.  The
    tracked total the code computes is the sum over the stages of the
    registry without [P_VOID]. *)
Theorem print_meets_contract :
  forall (p : TimeProfiler.t float) (os : list (item float)),
    TimeProfiler.wf p ->
    TimeProfiler.print os p = os ++ Reporter.report p
    /\ TimeProfiler.counted p = Reporter.trackedTotal p.
Proof.
  intros p os Hwf. split.
  - by apply print_report.
  - by apply counted_trackedTotal.
Qed.

Lemma print_meets_contract_witness :
  TimeProfiler.print []
    (TimeProfiler.call P_VOID (15 * ticks_per_milli)
       (TimeProfiler.call P_MOTCOMP (10 * ticks_per_milli)
          (TimeProfiler.start P_INTRAPRED 0 (TimeProfiler.new (D:=float) 0))))
  = [] ++ Reporter.report
            (TimeProfiler.call P_VOID (15 * ticks_per_milli)
               (TimeProfiler.call P_MOTCOMP (10 * ticks_per_milli)
                  (TimeProfiler.start P_INTRAPRED 0
                     (TimeProfiler.new (D:=float) 0))))
  /\ Reporter.report
       (TimeProfiler.call P_VOID (15 * ticks_per_milli)
          (TimeProfiler.call P_MOTCOMP (10 * ticks_per_milli)
             (TimeProfiler.start P_INTRAPRED 0
                (TimeProfiler.new (D:=float) 0))))
     = [ Chr newline; Str " "; Str "stages"; Str "time(ms)"; Str "%";
         Chr newline;
         Str " "; Str "P_INTRAPRED"; Dur 10%float;
         Dbl 0x1.0aaaaaaaaaaaap+6%float; Chr newline;
         Str " "; Str "P_MOTCOMP"; Dur 5%float;
         Dbl 0x1.0aaaaaaaaaaaap+5%float; Chr newline;
         Chr newline;
         Str " "; Str "TOTAL"; Dur 15%float; Dbl 100%float; Chr newline ].
Proof.
  split; [|vm_compute; reflexivity].
  refine (proj1 (print_meets_contract _ [] _)).
  reflexivity.
Defined.

Section Sentinels.
Context {D : Type} {A : Arith D}.
Implicit Types (p : TimeProfiler.t D).

(** The slot of [P_VOID] is not read. *)
Lemma print_with_void os d p :
  TimeProfiler.wf p ->
  TimeProfiler.print os (Reporter.with_void d p) = TimeProfiler.print os p.
Proof.
  intros Hwf. rewrite !print_rows. revert Hwf.
  destruct p as [prev st t0 l]. unfold TimeProfiler.wf. simpl. intros Hlen.
  do 13 (destruct l as [|? l]; try discriminate). reflexivity.
Qed.

Lemma trackedTotal_other p :
  Reporter.trackedTotal p
  = d_add (foldl d_add d_zero
             (map (fun s => TimeProfiler.duration_at s p)
                  (removelast Reporter.real_stages)))
          (TimeProfiler.duration_at P_OTHER p).
Proof. reflexivity. Qed.

(** The row of [P_OTHER], when its duration is not zero, is the last one
    before [TOTAL]. *)
Lemma print_other p :
  TimeProfiler.wf p ->
  d_eqb (TimeProfiler.duration_at P_OTHER p) d_zero = false ->
  exists pre,
    TimeProfiler.print [] p
    = pre
      ++ [ Str " "; Str "P_OTHER";
           Dur (d_div (TimeProfiler.duration_at P_OTHER p) TimeProfiler.scale);
           Dbl (d_mul (d_div (TimeProfiler.duration_at P_OTHER p)
                             (TimeProfiler.counted p)) (d_of_Z 100));
           Chr newline ]
      ++ [ Chr newline ]
      ++ [ Str " "; Str "TOTAL";
           Dur (d_div (TimeProfiler.counted p) TimeProfiler.scale);
           Dbl (d_of_Z 100); Chr newline ].
Proof.
  intros Hwf Hnz. rewrite print_rows.
  change Reporter.real_stages
    with (removelast Reporter.real_stages ++ [P_OTHER]).
  rewrite map_app, flat_map_app. cbn [map flat_map].
  unfold TimeProfiler.print_stage at 2.
  rewrite duration_at_lookup, Hnz by done. cbn [negb].
  exists (Reporter.heading
          ++ flat_map (TimeProfiler.print_stage p [])
               (map stage_index (removelast Reporter.real_stages))).
  rewrite app_nil_r, <- !app_assoc. reflexivity.
Qed.

End Sentinels.

(** C9, as stated, fails on the code.  A profiler that ran [P_OTHER] alone,
    for 5 ms: the tracked total is those 5 ms, and the report has a row for
    [P_OTHER], at 100 percent. *)
Lemma other_is_tracked :
  let p : TimeProfiler.t float :=
    TimeProfiler.call P_VOID (5 * ticks_per_milli)
      (TimeProfiler.start P_OTHER 0 (TimeProfiler.new 0)) in
  TimeProfiler.duration_at P_OTHER p = 5%float
  /\ TimeProfiler.counted p = 5%float
  /\ TimeProfiler.print [] p
     = [ Chr newline; Str " "; Str "stages"; Str "time(ms)"; Str "%";
         Chr newline;
         Str " "; Str "P_OTHER"; Dur 5%float; Dbl 100%float; Chr newline;
         Chr newline;
         Str " "; Str "TOTAL"; Dur 5%float; Dbl 100%float; Chr newline ].
Proof. vm_compute. repeat split. Qed.

(** C9, amended.  Only [P_VOID] is kept out of the tracked total and of the
    rows: whatever its slot holds, the report is the same.  [P_OTHER] is a
    stage like the others: its duration is the last term of the tracked
    total, and when it is not zero its row is the last one before [TOTAL]. *)
Theorem only_void_is_excluded :
  forall (D : Type) (A : Arith D) (p : TimeProfiler.t D),
    TimeProfiler.wf p ->
    (forall (os : list (item D)) (d : D),
        TimeProfiler.print os (Reporter.with_void d p) = TimeProfiler.print os p)
    /\ TimeProfiler.counted p
       = d_add (foldl d_add d_zero
                  (map (fun s => TimeProfiler.duration_at s p)
                       [ P_NALU_SLICE_PIC_HL; P_CONTROL_PARSE_DERIVE_LL;
                         P_PARSERESIDUALS; P_INTRAPRED; P_MOTCOMP;
                         P_ITRANS_REC; P_DBFILTER; P_SAO; P_RESHAPER; P_ALF ]))
               (TimeProfiler.duration_at P_OTHER p)
    /\ (d_eqb (TimeProfiler.duration_at P_OTHER p) d_zero = false ->
        exists pre,
          TimeProfiler.print [] p
          = pre
            ++ [ Str " "; Str "P_OTHER";
                 Dur (d_div (TimeProfiler.duration_at P_OTHER p)
                            TimeProfiler.scale);
                 Dbl (d_mul (d_div (TimeProfiler.duration_at P_OTHER p)
                                   (TimeProfiler.counted p)) (d_of_Z 100));
                 Chr newline ]
            ++ [ Chr newline ]
            ++ [ Str " "; Str "TOTAL";
                 Dur (d_div (TimeProfiler.counted p) TimeProfiler.scale);
                 Dbl (d_of_Z 100); Chr newline ]).
Proof.
  intros D A p Hwf. split; [|split].
  - intros os d. by apply print_with_void.
  - rewrite counted_trackedTotal by done. apply trackedTotal_other.
  - by apply print_other.
Qed.

(** A profiler that spent 3 ms in [P_VOID], 2 ms in [P_SAO] and 5 ms in
    [P_OTHER]. *)
Lemma only_void_is_excluded_witness :
  let p : TimeProfiler.t float :=
    TimeProfiler.call P_VOID (10 * ticks_per_milli)
      (TimeProfiler.call P_OTHER (5 * ticks_per_milli)
         (TimeProfiler.call P_SAO (3 * ticks_per_milli)
            (TimeProfiler.new 0))) in
  (TimeProfiler.duration_at P_VOID p = 3%float
   /\ TimeProfiler.duration_at P_SAO p = 2%float
   /\ TimeProfiler.duration_at P_OTHER p = 5%float)
  /\ TimeProfiler.duration_at P_VOID (Reporter.with_void 0%float p) = 0%float
  /\ TimeProfiler.print [] (Reporter.with_void 0%float p)
     = TimeProfiler.print [] p
  /\ TimeProfiler.counted p = d_add 2%float 5%float
  /\ exists pre,
       TimeProfiler.print [] p
       = pre
         ++ [ Str " "; Str "P_OTHER"; Dur (d_div 5%float TimeProfiler.scale);
              Dbl (d_mul (d_div 5%float (TimeProfiler.counted p)) (d_of_Z 100));
              Chr newline ]
         ++ [ Chr newline ]
         ++ [ Str " "; Str "TOTAL";
              Dur (d_div (TimeProfiler.counted p) TimeProfiler.scale);
              Dbl (d_of_Z 100); Chr newline ].
Proof.
  cbv zeta.
  destruct (only_void_is_excluded float binary64
              (TimeProfiler.call P_VOID (10 * ticks_per_milli)
                 (TimeProfiler.call P_OTHER (5 * ticks_per_milli)
                    (TimeProfiler.call P_SAO (3 * ticks_per_milli)
                       (TimeProfiler.new 0)))) eq_refl)
    as (Hvoid & Htotal & Hother).
  split; [by vm_compute|]. split; [by vm_compute|].
  split; [exact (Hvoid [] 0%float)|].
  split; [exact Htotal|].
  exact (Hother eq_refl).
Defined.

(** ** A tracked total of zero *)

Section ZeroTotal.
Implicit Types (p : TimeProfiler.t float).

(** For a slot that holds a zero the loop inserts nothing. *)
Lemma print_stage_zero p s :
  TimeProfiler.wf p ->
  PrimFloat.eqb (TimeProfiler.duration_at s p) 0 = true ->
  TimeProfiler.print_stage p [] (stage_index s) = [].
Proof.
  intros Hwf Hz. unfold TimeProfiler.print_stage.
  rewrite duration_at_lookup by done.
  change (d_eqb (TimeProfiler.duration_at s p) d_zero)
    with (PrimFloat.eqb (TimeProfiler.duration_at s p) 0).
  by rewrite Hz.
Qed.

(** With durations that are not below zero, a tracked total of zero means
    that every stage but [P_VOID] has a zero duration. *)
Lemma counted_zero p s :
  TimeProfiler.wf p -> Forall nonnegative (TimeProfiler.durations p) ->
  PrimFloat.eqb (TimeProfiler.counted p) 0 = true ->
  s <> P_VOID ->
  PrimFloat.eqb (TimeProfiler.duration_at s p) 0 = true.
Proof.
  intros Hwf Hnn Hz Hs.
  unfold TimeProfiler.counted, TimeProfiler.accumulate in Hz.
  destruct (foldl_add_nonnegative
              (take (length (TimeProfiler.durations p) - 1)
                    (TimeProfiler.durations p)) 0%float) as [_ Hall].
  { reflexivity. }
  { by apply Forall_take. }
  destruct (Hall Hz) as [_ Hzeros].
  rewrite Forall_lookup in Hzeros.
  apply (Hzeros (stage_index s)).
  rewrite lookup_take_lt.
  - by apply duration_at_lookup.
  - rewrite Hwf. destruct s; simpl; first [lia | by destruct Hs].
Qed.

Lemma print_zero os p :
  TimeProfiler.wf p -> Forall nonnegative (TimeProfiler.durations p) ->
  PrimFloat.eqb (TimeProfiler.counted p) 0 = true ->
  TimeProfiler.print os p
  = os ++ Reporter.heading ++ [ Chr newline ]
    ++ [ Str " "; Str "TOTAL";
         Dur (PrimFloat.div (TimeProfiler.counted p) TimeProfiler.scale);
         Dbl 100%float; Chr newline ].
Proof.
  intros Hwf Hnn Hz. rewrite print_rows.
  replace (flat_map (TimeProfiler.print_stage p [])
             (map stage_index Reporter.real_stages))
    with (@nil (item float)); [reflexivity|].
  unfold Reporter.real_stages. cbn [map flat_map].
  rewrite !print_stage_zero; [reflexivity|..];
    first [done | by apply counted_zero].
Qed.

End ZeroTotal.

(** C8, as stated, fails on the code.  The report of a new profiler shows
    one percentage, the 100 of the [TOTAL] row: not every percentage shown
    is zero. *)
Lemma new_report_shows_100 :
  Reporter.percentages (TimeProfiler.print [] (TimeProfiler.new (D:=float) 0))
  = [ 100%float ]
  /\ ~ Forall (fun x => PrimFloat.eqb x 0 = true)
         (Reporter.percentages
            (TimeProfiler.print [] (TimeProfiler.new (D:=float) 0))).
Proof.
  split; [reflexivity|].
  intros H. apply Forall_inv in H. vm_compute in H. discriminate.
Qed.

(** C8, amended.  When the tracked total is zero and no duration is below
    zero (as for a new profiler), the report has no row for any stage, so
    no duration is divided by the total; the [TOTAL] row shows a zero
    duration and, as always, 100 percent, the only percentage shown. *)
Theorem zero_total_report :
  (forall (p : TimeProfiler.t float) (os : list (item float)),
      TimeProfiler.wf p ->
      Forall nonnegative (TimeProfiler.durations p) ->
      PrimFloat.eqb (TimeProfiler.counted p) 0 = true ->
      TimeProfiler.print os p
      = os ++ [ Chr newline; Str " "; Str "stages"; Str "time(ms)"; Str "%";
                Chr newline;
                Chr newline;
                Str " "; Str "TOTAL";
                Dur (PrimFloat.div (TimeProfiler.counted p) TimeProfiler.scale);
                Dbl 100%float; Chr newline ]
      /\ PrimFloat.eqb (PrimFloat.div (TimeProfiler.counted p) TimeProfiler.scale) 0
         = true
      /\ Reporter.percentages (TimeProfiler.print [] p) = [ 100%float ])
  /\ (forall now : time_point,
        TimeProfiler.counted (TimeProfiler.new (D:=float) now) = 0%float
        /\ TimeProfiler.print [] (TimeProfiler.new (D:=float) now)
           = [ Chr newline; Str " "; Str "stages"; Str "time(ms)"; Str "%";
               Chr newline;
               Chr newline;
               Str " "; Str "TOTAL"; Dur 0%float; Dbl 100%float;
               Chr newline ]).
Proof.
  split; [|intros now; split; reflexivity].
  intros p os Hwf Hnn Hz.
  rewrite !print_zero by done.
  split; [reflexivity|]. split; [by apply float_zero_div_scale | reflexivity].
Qed.

Lemma zero_total_report_witness :
  TimeProfiler.print []
    (TimeProfiler.call P_SAO 9 (TimeProfiler.new (D:=float) 4))
  = [] ++ [ Chr newline; Str " "; Str "stages"; Str "time(ms)"; Str "%";
            Chr newline;
            Chr newline;
            Str " "; Str "TOTAL";
            Dur (PrimFloat.div
                   (TimeProfiler.counted
                      (TimeProfiler.call P_SAO 9
                         (TimeProfiler.new (D:=float) 4)))
                   TimeProfiler.scale);
            Dbl 100%float; Chr newline ].
Proof.
  refine (proj1 (proj1 zero_total_report
                   (TimeProfiler.call P_SAO 9 (TimeProfiler.new 4)) [] _ _ _)).
  - reflexivity.
  - repeat constructor.
  - reflexivity.
Defined.

(** * Further properties of the code *)

(** ** The scalar profiler *)

(** Every member function leaves [durations] with the [P_STAGES + 1] slots
    the constructor gives it, so that [durations[m_eStage]] is always inside
    the vector.  [operator+=] does so whatever the size of the other
    profiler's vector. *)
Theorem durations_size_invariant :
  forall (D : Type) (A : Arith D),
    (forall now : time_point, TimeProfiler.wf (TimeProfiler.new (D:=D) now))
    /\ (forall p : TimeProfiler.t D, TimeProfiler.wf (TimeProfiler.init p))
    /\ (forall (p : TimeProfiler.t D) (s : STAGE) (now : time_point),
          TimeProfiler.wf p ->
          TimeProfiler.wf (TimeProfiler.call s now p)
          /\ TimeProfiler.wf (TimeProfiler.start s now p)
          /\ TimeProfiler.wf (TimeProfiler.stop s now p))
    /\ (forall p other : TimeProfiler.t D,
          TimeProfiler.wf p ->
          TimeProfiler.wf (TimeProfiler.add_assign other p)).
Proof.
  intros D A. split; [intros; apply wf_new|]. split; [by intros|].
  split.
  - intros p s now Hwf. auto using wf_call, wf_start, wf_stop.
  - intros p other Hwf. by apply wf_add_assign.
Qed.

Lemma durations_size_invariant_witness :
  TimeProfiler.wf
    (TimeProfiler.add_assign
       (TimeProfiler.mk 0 P_SAO 0 [ 1%float; 2%float ])
       (TimeProfiler.new (D:=float) 0)).
Proof.
  refine (proj2 (proj2 (proj2 (durations_size_invariant float binary64)))
            (TimeProfiler.new 0) _ _).
  reflexivity.
Defined.

(** [start] charges nothing: the time from the last transition to the call
    of [start] is in no slot.  The next transition charges the stage given
    to [start] with the time since [start] alone. *)
Theorem start_drops_open_interval :
  forall (D : Type) (A : Arith D) (p : TimeProfiler.t D) (s s' : STAGE)
         (t1 t2 : time_point),
    TimeProfiler.wf p ->
    let p' := TimeProfiler.call s' t2 (TimeProfiler.start s t1 p) in
    TimeProfiler.durations (TimeProfiler.start s t1 p) = TimeProfiler.durations p
    /\ TimeProfiler.duration_at s p'
       = d_add (TimeProfiler.duration_at s p) (to_duration (t2 - t1))
    /\ (forall s0, s0 <> s ->
          TimeProfiler.duration_at s0 p' = TimeProfiler.duration_at s0 p).
Proof.
  intros D A p s s' t1 t2 Hwf p'. split; [reflexivity|]. split.
  - apply (duration_at_call_active s' t2 (TimeProfiler.start s t1 p)).
    by apply wf_start.
  - intros s0 Hne.
    by apply (duration_at_call_other s' s0 t2 (TimeProfiler.start s t1 p)).
Qed.

Lemma start_drops_open_interval_witness :
  TimeProfiler.duration_at P_ALF
    (TimeProfiler.call P_SAO 9
       (TimeProfiler.start P_ALF 5 (TimeProfiler.new (D:=float) 0)))
  = d_add (TimeProfiler.duration_at P_ALF (TimeProfiler.new (D:=float) 0))
          (to_duration (9 - 5)).
Proof.
  refine (proj1 (proj2 (start_drops_open_interval float binary64
                          (TimeProfiler.new 0) P_ALF P_SAO 5 9 _))).
  reflexivity.
Defined.

(** [stop] followed by a transition charges the time up to [stop] twice:
    the active stage gets the interval from the last transition to [stop]
    and then the interval from the last transition to the next one. *)
Theorem stop_then_call_charges_twice :
  forall (D : Type) (A : Arith D) (p : TimeProfiler.t D) (s s' : STAGE)
         (t1 t2 : time_point),
    TimeProfiler.wf p ->
    let S0 := TimeProfiler.m_eStage p in
    let t0 := TimeProfiler.m_previous p in
    TimeProfiler.duration_at S0
      (TimeProfiler.call s' t2 (TimeProfiler.stop s t1 p))
    = d_add (d_add (TimeProfiler.duration_at S0 p) (to_duration (t1 - t0)))
            (to_duration (t2 - t0)).
Proof.
  intros D A p s s' t1 t2 Hwf S0 t0.
  rewrite (duration_at_call_active s' t2 (TimeProfiler.stop s t1 p))
    by (by apply wf_stop).
  cbn [TimeProfiler.stop TimeProfiler.m_eStage TimeProfiler.m_previous].
  f_equal. apply (duration_at_call_active S0 t1 p Hwf).
Qed.

Lemma stop_then_call_charges_twice_witness :
  TimeProfiler.duration_at P_VOID
    (TimeProfiler.call P_SAO 9
       (TimeProfiler.stop P_SAO 5 (TimeProfiler.new (D:=float) 0)))
  = d_add (d_add (TimeProfiler.duration_at P_VOID
                    (TimeProfiler.new (D:=float) 0))
                 (to_duration (5 - 0)))
          (to_duration (9 - 0)).
Proof.
  refine (stop_then_call_charges_twice float binary64 (TimeProfiler.new 0)
            P_SAO P_SAO 5 9 _).
  reflexivity.
Defined.

(** ** Scope guards *)

(** One scope: a guard for [s] built at [t0] and destroyed at [t1], on a
    profiler whose active stage is another one.  The stage active at entry
    gets the time up to the entry, [s] gets the time inside the scope, no
    other slot changes, and the stage active at entry is active again. *)
Theorem guard_scope :
  forall (D : Type) (A : Arith D) (p : TimeProfiler.t D) (s : STAGE)
         (t0 t1 : time_point),
    TimeProfiler.wf p -> TimeProfiler.m_eStage p <> s ->
    let S0 := TimeProfiler.m_eStage p in
    let p' := StageTimeProfiler.delete (StageTimeProfiler.new s t0 p).1 t1
                (StageTimeProfiler.new s t0 p).2 in
    TimeProfiler.duration_at s p'
    = d_add (TimeProfiler.duration_at s p) (to_duration (t1 - t0))
    /\ TimeProfiler.duration_at S0 p'
       = d_add (TimeProfiler.duration_at S0 p)
               (to_duration (t0 - TimeProfiler.m_previous p))
    /\ (forall s', s' <> s -> s' <> S0 ->
          TimeProfiler.duration_at s' p' = TimeProfiler.duration_at s' p)
    /\ TimeProfiler.curStage p' = S0
    /\ TimeProfiler.m_previous p' = t1.
Proof.
  intros D A p s t0 t1 Hwf Hne S0 p'. subst p' S0.
  unfold StageTimeProfiler.new, StageTimeProfiler.delete, TimeProfiler.curStage.
  cbn [fst snd StageTimeProfiler.m_ePrevStage].
  repeat split.
  - rewrite !duration_at_call by auto using wf_call.
    cbn [TimeProfiler.call TimeProfiler.m_eStage TimeProfiler.m_previous].
    repeat case_decide; congruence.
  - rewrite !duration_at_call by auto using wf_call.
    cbn [TimeProfiler.call TimeProfiler.m_eStage TimeProfiler.m_previous].
    repeat case_decide; congruence.
  - intros s' Hs Hs0. rewrite !duration_at_call by auto using wf_call.
    cbn [TimeProfiler.call TimeProfiler.m_eStage TimeProfiler.m_previous].
    repeat case_decide; congruence.
Qed.

Lemma guard_scope_witness :
  TimeProfiler.duration_at P_DBFILTER
    (StageTimeProfiler.delete
       (StageTimeProfiler.new P_DBFILTER 3 (TimeProfiler.new (D:=float) 1)).1 8
       (StageTimeProfiler.new P_DBFILTER 3 (TimeProfiler.new (D:=float) 1)).2)
  = d_add (TimeProfiler.duration_at P_DBFILTER (TimeProfiler.new (D:=float) 1))
          (to_duration (8 - 3)).
Proof.
  refine (proj1 (guard_scope float binary64 (TimeProfiler.new 1) P_DBFILTER
                   3 8 _ _)).
  - reflexivity.
  - discriminate.
Defined.

(** Guards destroyed in the order of their construction: the profiler
    holds one stage, not a stack.  The inner stage [X] is charged until the
    outer guard is destroyed, the time from there to the destruction of the
    inner guard goes to the stage active before both, [Y] gets only the
    time between the two constructions, and [Y] is left active. *)
Theorem crossed_guards :
  forall (D : Type) (A : Arith D) (p : TimeProfiler.t D) (Y X : STAGE)
         (t0 t1 t2 t3 : time_point),
    TimeProfiler.wf p ->
    X <> Y -> TimeProfiler.m_eStage p <> X -> TimeProfiler.m_eStage p <> Y ->
    let S0 := TimeProfiler.m_eStage p in
    let p' := StageTimeProfiler.crossed Y X t0 t1 t2 t3 p in
    TimeProfiler.duration_at X p'
    = d_add (TimeProfiler.duration_at X p) (to_duration (t2 - t1))
    /\ TimeProfiler.duration_at Y p'
       = d_add (TimeProfiler.duration_at Y p) (to_duration (t1 - t0))
    /\ TimeProfiler.duration_at S0 p'
       = d_add (d_add (TimeProfiler.duration_at S0 p)
                      (to_duration (t0 - TimeProfiler.m_previous p)))
               (to_duration (t3 - t2))
    /\ TimeProfiler.curStage p' = Y.
Proof.
  intros D A p Y X t0 t1 t2 t3 Hwf HXY HX HY S0 p'. subst p' S0.
  unfold StageTimeProfiler.crossed, StageTimeProfiler.new,
    StageTimeProfiler.delete, TimeProfiler.curStage.
  cbn [StageTimeProfiler.m_ePrevStage].
  rewrite !duration_at_call by auto using wf_call.
  cbn [TimeProfiler.call TimeProfiler.m_eStage TimeProfiler.m_previous].
  repeat case_decide; try congruence. done.
Qed.

Lemma crossed_guards_witness :
  TimeProfiler.curStage
    (StageTimeProfiler.crossed P_MOTCOMP P_INTRAPRED 1 3 7 12
       (TimeProfiler.new (D:=float) 0))
  = P_MOTCOMP.
Proof.
  refine (proj2 (proj2 (proj2 (crossed_guards float binary64
    (TimeProfiler.new 0) P_MOTCOMP P_INTRAPRED 1 3 7 12 _ _ _ _))));
    first [reflexivity | discriminate].
Defined.

(** [PROFILER_SCOPE_AND_STAGE(1,p,s)]: whatever the rest of the block does
    with the profiler, at the end of the block the stage that was active at
    its start is active again, and the time from the block's last
    transition to its end is charged to the stage the block left active.
    With [cond] 0 the macro declares nothing. *)
Theorem scope_macro_restores_stage :
  forall (D : Type) (A : Arith D) (p : TimeProfiler.t D) (s : STAGE)
         (t0 t1 : time_point)
         (body : TimeProfiler.t D -> TimeProfiler.t D),
    let q := body (TimeProfiler.call s t0 p) in
    let p' := Macros.PROFILER_SCOPE_AND_STAGE true s t0 t1 body p in
    TimeProfiler.curStage p' = TimeProfiler.curStage p
    /\ TimeProfiler.m_previous p' = t1
    /\ (TimeProfiler.wf q ->
        TimeProfiler.duration_at (TimeProfiler.m_eStage q) p'
        = d_add (TimeProfiler.duration_at (TimeProfiler.m_eStage q) q)
                (to_duration (t1 - TimeProfiler.m_previous q)))
    /\ Macros.PROFILER_SCOPE_AND_STAGE false s t0 t1 body p = body p.
Proof.
  intros D A p s t0 t1 body q p'. repeat split.
  intros Hwf. apply (duration_at_call_active _ t1 q Hwf).
Qed.

Lemma scope_macro_restores_stage_witness :
  TimeProfiler.duration_at P_SAO
    (Macros.PROFILER_SCOPE_AND_STAGE true P_ALF 2 9
       (TimeProfiler.call P_SAO 5) (TimeProfiler.new (D:=float) 0))
  = d_add (TimeProfiler.duration_at P_SAO
             (TimeProfiler.call P_SAO 5
                (TimeProfiler.call P_ALF 2 (TimeProfiler.new (D:=float) 0))))
          (to_duration (9 - 5)).
Proof.
  refine (proj1 (proj2 (proj2 (scope_macro_restores_stage float binary64
    (TimeProfiler.new 0) P_ALF 2 9 (TimeProfiler.call P_SAO 5)))) _).
  reflexivity.
Defined.

(** ** Merging profilers of any size *)

(** [operator+=] reads nothing but the other profiler's durations and
    writes nothing but the slots both vectors have: the clock state of the
    profiler merged into is kept, its vector keeps its size, a slot both
    have holds the sum, and a slot past the end of the other vector is
    untouched. *)
Theorem merge_frame :
  forall (D : Type) (A : Arith D) (p other : TimeProfiler.t D),
    let p' := TimeProfiler.add_assign other p in
    TimeProfiler.m_previous p' = TimeProfiler.m_previous p
    /\ TimeProfiler.m_eStage p' = TimeProfiler.m_eStage p
    /\ TimeProfiler.start_time p' = TimeProfiler.start_time p
    /\ length (TimeProfiler.durations p') = length (TimeProfiler.durations p)
    /\ (forall (i : nat) (x y : D),
          TimeProfiler.durations p !! i = Some x ->
          TimeProfiler.durations other !! i = Some y ->
          TimeProfiler.durations p' !! i = Some (d_add x y))
    /\ (forall i : nat,
          (length (TimeProfiler.durations other) <= i)%nat ->
          TimeProfiler.durations p' !! i = TimeProfiler.durations p !! i).
Proof.
  intros D A p other p'. subst p'. simpl.
  split; [done|]. split; [done|]. split; [done|].
  split; [apply add_all_length|]. split.
  - intros i x y. apply add_all_lookup.
  - intros i. apply add_all_lookup_ge.
Qed.

Lemma merge_frame_witness :
  TimeProfiler.durations
    (TimeProfiler.add_assign
       (TimeProfiler.mk 0 P_SAO 0 [ 1%float; 2%float ])
       (TimeProfiler.new (D:=float) 0)) !! 5%nat
  = TimeProfiler.durations (TimeProfiler.new (D:=float) 0) !! 5%nat.
Proof.
  refine (proj2 (proj2 (proj2 (proj2 (proj2
    (merge_frame float binary64 (TimeProfiler.new 0)
       (TimeProfiler.mk 0 P_SAO 0 [ 1%float; 2%float ])))))) 5%nat _).
  simpl. lia.
Defined.

Lemma Prim2SF_neg_zero (x : float) :
  Prim2SF x = S754_zero true -> x = neg_zero.
Proof.
  intros H. rewrite <- (SF2Prim_Prim2SF x), H. reflexivity.
Qed.

(** [x + 0.0] and [0.0 + x] are [x], unless [x] is the negative zero. *)
Lemma float_add_zero (x : float) :
  x <> neg_zero -> (x + 0 = x)%float /\ (0 + x = x)%float.
Proof.
  intros Hx.
  assert (Prim2SF x <> S754_zero true) as Hsf
    by (intros H; by apply Hx, Prim2SF_neg_zero).
  split; apply Prim2SF_inj; rewrite FloatAxioms.add_spec;
    change (Prim2SF 0) with (S754_zero false);
    destruct (Prim2SF x) as [[]|[]| |s m e]; try reflexivity; by destruct Hsf.
Qed.

Lemma add_all_zeros_r (l : list float) (n : nat) :
  Forall (fun v => v <> neg_zero) l ->
  TimeProfiler.add_all l (replicate n 0%float) = l.
Proof.
  revert n. induction l as [|x l IH]; intros [|n] Hl; simpl; try done.
  apply Forall_cons in Hl as [Hx Hl].
  rewrite (IH n Hl). f_equal. by apply float_add_zero.
Qed.

Lemma add_all_zeros_l (l : list float) :
  Forall (fun v => v <> neg_zero) l ->
  TimeProfiler.add_all (replicate (length l) 0%float) l = l.
Proof.
  induction l as [|x l IH]; intros Hl; simpl; [done|].
  apply Forall_cons in Hl as [Hx Hl].
  rewrite (IH Hl). f_equal. by apply float_add_zero.
Qed.

(** Merging with a profiler that has run nothing changes no duration, in
    either direction, in double precision; the one exception is a slot
    holding the negative zero, which becomes the positive zero. *)
Theorem merge_with_new_profiler :
  forall (p : TimeProfiler.t float) (now : time_point),
    TimeProfiler.wf p ->
    Forall (fun v => v <> neg_zero) (TimeProfiler.durations p) ->
    TimeProfiler.durations (TimeProfiler.add_assign (TimeProfiler.new now) p)
    = TimeProfiler.durations p
    /\ TimeProfiler.durations (TimeProfiler.add_assign p (TimeProfiler.new now))
       = TimeProfiler.durations p.
Proof.
  intros p now Hwf Hnz. split.
  - exact (add_all_zeros_r _ TimeProfiler.m_numStages Hnz).
  - unfold TimeProfiler.add_assign. cbn [TimeProfiler.durations].
    change (TimeProfiler.durations (TimeProfiler.new now))
      with (replicate TimeProfiler.m_numStages 0%float).
    rewrite <- Hwf. by apply add_all_zeros_l.
Qed.

Lemma merge_with_new_profiler_witness :
  TimeProfiler.durations
    (TimeProfiler.add_assign (TimeProfiler.new 3)
       (TimeProfiler.call P_SAO 9 (TimeProfiler.new (D:=float) 4)))
  = TimeProfiler.durations
      (TimeProfiler.call P_SAO 9 (TimeProfiler.new (D:=float) 4)).
Proof.
  refine (proj1 (merge_with_new_profiler
                   (TimeProfiler.call P_SAO 9 (TimeProfiler.new 4)) 3 _ _)).
  - reflexivity.
  - repeat constructor; intros H;
      apply (f_equal (fun x => PrimFloat.ltb (1 / x) 0)) in H;
      vm_compute in H; discriminate.
Defined.

(** ** Durations are never below zero *)

Lemma shr_fexp_nonneg m e l :
  0 <= m -> 0 <= shr_m (fst (shr_fexp prec emax m e l)).
Proof.
  intros Hm. unfold shr_fexp, shr.
  destruct (fexp prec emax (Zdigits2 m + e) - e) as [|k|k]; cbn [fst];
    try by rewrite shr_record_of_loc_m.
  apply iter_shr_1_digits. by rewrite shr_record_of_loc_m.
Qed.

Lemma round_nearest_even_nonneg m l :
  0 <= m -> 0 <= round_nearest_even m l.
Proof.
  intros Hm. unfold round_nearest_even.
  destruct l as [|[]]; try lia. destruct (Z.even m); lia.
Qed.

Lemma binary_round_aux_not_below_zero m e l :
  0 <= m -> not_below_zero (binary_round_aux prec emax false m e l).
Proof.
  intros Hm. unfold binary_round_aux.
  pose proof (shr_fexp_nonneg m e l Hm) as H1.
  destruct (shr_fexp prec emax m e l) as [mrs' e']. cbn [fst] in H1.
  pose proof (shr_fexp_nonneg _ e' loc_Exact
                (round_nearest_even_nonneg _ (loc_of_shr_record mrs') H1)) as H2.
  destruct (shr_fexp prec emax _ e' loc_Exact) as [mrs'' e'']. cbn [fst] in H2.
  destruct (shr_m mrs''); [exact I | | lia].
  by destruct (_ <=? _).
Qed.

Lemma SFdiv_core_binary_nonneg mx ex my ey :
  0 <= (SFdiv_core_binary prec emax (Zpos mx) ex (Zpos my) ey).1.1.
Proof.
  unfold SFdiv_core_binary.
  set (s := _ - _ - _).
  set (m' := match s with Z0 => Zpos mx | Zpos _ => Z.shiftl (Zpos mx) s
                        | Zneg _ => 0 end).
  assert (0 <= m') as Hm'.
  { subst m'. destruct s; try lia. apply Z.shiftl_nonneg. lia. }
  pose proof (Z_div_mod m' (Zpos my) eq_refl) as Hdm.
  destruct (Z.div_eucl m' (Zpos my)) as [q r]. cbn [fst]. nia.
Qed.

Lemma float_of_Z_not_below_zero z :
  0 <= z -> not_below_zero (Prim2SF (float_of_Z z)).
Proof.
  intros Hz. unfold float_of_Z. destruct (Z.ltb_spec z 0); [lia|].
  rewrite of_uint63_spec.
  pose proof (Uint63.to_Z_bounded (Uint63.of_Z z)) as [Hb _].
  destruct (Uint63.to_Z (Uint63.of_Z z)) as [|m|m]; [exact I| |lia].
  cbn [binary_normalize].
  pose proof (binary_round_positive m 0 ltac:(vm_compute; discriminate)) as Hp.
  by destruct (binary_round prec emax false m 0) as [?|[]| |[] ? ?].
Qed.

(** An interval that is not negative converts to a duration that is not
    below zero (and is not a NaN). *)
Lemma to_duration_nonnegative z :
  0 <= z -> nonnegative (to_duration (D:=float) z).
Proof.
  intros Hz. apply nonnegative_spec.
  unfold to_duration. cbn [d_div d_of_Z binary64].
  rewrite FloatAxioms.div_spec, Prim2SF_ticks_per_milli.
  pose proof (float_of_Z_not_below_zero z Hz) as Hn.
  destruct (Prim2SF (float_of_Z z)) as [s|[]| |[] m e];
    try (exfalso; exact Hn); try exact I.
  unfold SF64div, SFdiv.
  pose proof (SFdiv_core_binary_nonneg m e 8589934592000000 (-33)) as Hq.
  destruct (SFdiv_core_binary _ _ _ _ _ _) as [[mz ez] lz]. cbn [fst] in Hq.
  by apply binary_round_aux_not_below_zero.
Qed.

Lemma add_all_nonnegative (l1 l2 : list float) :
  Forall nonnegative l1 -> Forall nonnegative l2 ->
  Forall nonnegative (TimeProfiler.add_all l1 l2).
Proof.
  intros H1. revert l2. induction H1 as [|x l1 Hx H1 IH]; intros l2 H2.
  - by destruct l2.
  - destruct H2 as [|y l2 Hy H2]; simpl; [by constructor|].
    constructor; [by apply float_add_nonnegative | by apply IH].
Qed.

(** With a clock that does not run backwards no duration is ever below
    zero or a NaN: the constructor, [operator()], [stop] and
    [operator+=] keep it so, in double precision. *)
Theorem durations_nonnegative_invariant :
  (forall now : time_point,
      Forall nonnegative (TimeProfiler.durations (TimeProfiler.new now)))
  /\ (forall (p : TimeProfiler.t float) (s : STAGE) (now : time_point),
        Forall nonnegative (TimeProfiler.durations p) ->
        TimeProfiler.m_previous p <= now ->
        Forall nonnegative (TimeProfiler.durations (TimeProfiler.call s now p))
        /\ Forall nonnegative
             (TimeProfiler.durations (TimeProfiler.stop s now p)))
  /\ (forall p other : TimeProfiler.t float,
        Forall nonnegative (TimeProfiler.durations p) ->
        Forall nonnegative (TimeProfiler.durations other) ->
        Forall nonnegative
          (TimeProfiler.durations (TimeProfiler.add_assign other p))).
Proof.
  split; [|split].
  - intros now. simpl. repeat constructor.
  - intros p s now Hnn Hle.
    assert (Forall nonnegative
              (TimeProfiler.slot_add (stage_index (TimeProfiler.m_eStage p))
                 (to_duration (now - TimeProfiler.m_previous p))
                 (TimeProfiler.durations p))) as H.
    { apply Forall_alter; [done|]. intros v _ Hv.
      apply float_add_nonnegative; [done|].
      apply to_duration_nonnegative. lia. }
    by split.
  - intros p other Hp Ho. by apply add_all_nonnegative.
Qed.

Lemma durations_nonnegative_invariant_witness :
  Forall nonnegative
    (TimeProfiler.durations
       (TimeProfiler.call P_SAO 9 (TimeProfiler.new (D:=float) 4))).
Proof.
  refine (proj1 (proj1 (proj2 durations_nonnegative_invariant)
                   (TimeProfiler.new 4) P_SAO 9 _ _)).
  - repeat constructor.
  - simpl. lia.
Defined.

(** ** Every tick is charged once *)

Lemma whole_ms_new tc :
  whole_ms TimeProfiler.m_numStages tc (TimeProfiler.new tc)
    (replicate TimeProfiler.m_numStages 0).
Proof.
  split; [apply wf_new|]. split; [reflexivity|].
  split; [by apply Forall_replicate|].
  cbn [TimeProfiler.new TimeProfiler.init TimeProfiler.m_previous]. simpl. lia.
Qed.

(** In double precision, after calls of [operator()] on a new profiler,
    each a whole number of milliseconds after the one before (the first
    after the construction), with less than 2^53 ticks from the
    construction to the last call, the durations of all slots, that of
    [P_VOID] included, sum to the time from the construction to the last
    call: each tick is charged to exactly one slot. *)
Theorem total_conservation_binary64 :
  forall (tc : time_point) (mid : list (STAGE * time_point))
         (c : STAGE * time_point),
    paced tc (mid ++ [c]) ->
    snd c - tc < 2 ^ 53 ->
    TimeProfiler.accumulate
      (TimeProfiler.durations
         (TimeProfiler.calls (mid ++ [c]) (TimeProfiler.new (D:=float) tc)))
      d_zero
    = to_duration (snd c - tc).
Proof.
  intros tc mid c Hp Hb.
  destruct (whole_ms_calls TimeProfiler.m_numStages tc mid c
              (TimeProfiler.new tc) (replicate TimeProfiler.m_numStages 0))
    as (ms & Hinv & Hprev).
  - done.
  - apply whole_ms_new.
  - apply stage_index_lt.
  - apply Forall_forall. intros c' _. apply stage_index_lt.
  - exact Hp.
  - exact Hb.
  - pose proof (whole_ms_accumulate _ _ _ _ Hinv) as Hacc.
    rewrite Hprev in Hacc. destruct Hinv as (Hwf & _).
    rewrite take_ge in Hacc by (rewrite Hwf; done).
    by apply Hacc.
Qed.

Lemma total_conservation_binary64_witness :
  TimeProfiler.accumulate
    (TimeProfiler.durations
       (TimeProfiler.calls
          ([ (P_SAO, 3000000); (P_VOID, 5000000) ] ++ [ (P_ALF, 11000000) ])
          (TimeProfiler.new (D:=float) 1000000)))
    d_zero
  = to_duration (11000000 - 1000000).
Proof.
  apply (total_conservation_binary64 1000000
           [ (P_SAO, 3000000); (P_VOID, 5000000) ] (P_ALF, 11000000)).
  - simpl. repeat split; try lia.
    + by exists 2.
    + by exists 2.
    + by exists 6.
  - reflexivity.
Defined.

(** ** The extended profiler: bounds *)

Section Shape.
Context {D : Type} {A : Arith D}.
Implicit Types (p : TimeProfiler2D.t D).

Lemma stage_index_lt_names (s : STAGE) :
  (stage_index s < length stageNames)%nat.
Proof. destruct s; simpl; lia. Qed.

Lemma shaped_new numX numY numZ now :
  TimeProfiler2D.shaped (TimeProfiler2D.new (D:=D) numX numY numZ now).
Proof.
  unfold TimeProfiler2D.shaped, TimeProfiler2D.new, StatCounter2DSet.init.
  cbn [TimeProfiler2D.m_counters TimeProfiler2D.m_numX TimeProfiler2D.m_numY
       TimeProfiler2D.m_numZ].
  split; [apply length_replicate|].
  apply Forall_replicate. split; [apply length_replicate|].
  apply Forall_replicate. split; [apply length_replicate|].
  apply Forall_replicate. apply length_replicate.
Qed.

(** Inside the extents there is a cell, outside there is none. *)
Lemma shaped_cell p z s y x :
  TimeProfiler2D.shaped p ->
  is_Some (TimeProfiler2D.cell (TimeProfiler2D.m_counters p) z s y x)
  <-> (z < TimeProfiler2D.m_numZ p)%nat /\ (y < TimeProfiler2D.m_numY p)%nat
      /\ (x < TimeProfiler2D.m_numX p)%nat.
Proof.
  intros [Hz Hsets]. unfold TimeProfiler2D.cell. rewrite <- Hz.
  generalize dependent (TimeProfiler2D.m_counters p).
  intros cs Hz Hsets. unfold StatCounter2DSet.t in *.
  destruct (cs !! z) as [set|] eqn:Hset; simpl.
  - pose proof (lookup_lt_Some _ _ _ Hset) as Hzlt.
    rewrite Forall_lookup in Hsets.
    destruct (Hsets z set Hset) as [Hs Hgrids].
    destruct (lookup_lt_is_Some_2 set (stage_index s)) as [grid Hgrid].
    { rewrite Hs. apply stage_index_lt_names. }
    rewrite Hgrid. simpl.
    rewrite Forall_lookup in Hgrids.
    destruct (Hgrids _ grid Hgrid) as [Hy Hrows]. rewrite <- Hy.
    destruct (grid !! y) as [row|] eqn:Hrow; simpl.
    + pose proof (lookup_lt_Some _ _ _ Hrow) as Hylt.
      rewrite Forall_lookup in Hrows. rewrite <- (Hrows y row Hrow).
      rewrite lookup_lt_is_Some. tauto.
    + apply lookup_ge_None in Hrow. split; [by intros [? ?]|lia].
  - apply lookup_ge_None in Hset. split; [by intros [? ?]|lia].
Qed.

Lemma shaped_cell_add p z s y x d :
  TimeProfiler2D.shaped p ->
  TimeProfiler2D.shaped
    (TimeProfiler2D.mk (TimeProfiler2D.m_previous p)
       (TimeProfiler2D.m_startTime p) (TimeProfiler2D.m_stage p)
       (TimeProfiler2D.m_numX p) (TimeProfiler2D.m_numY p)
       (TimeProfiler2D.m_numZ p) (TimeProfiler2D.m_curX p)
       (TimeProfiler2D.m_curY p) (TimeProfiler2D.m_curZ p)
       (TimeProfiler2D.cell_add z s y x d (TimeProfiler2D.m_counters p))).
Proof.
  intros [Hz Hsets]. unfold TimeProfiler2D.shaped, TimeProfiler2D.cell_add.
  cbn [TimeProfiler2D.m_counters TimeProfiler2D.m_numX TimeProfiler2D.m_numY
       TimeProfiler2D.m_numZ].
  unfold StatCounter2DSet.t in *.
  split; [by rewrite length_alter|].
  apply Forall_alter; [done|]. intros set _ [Hs Hgrids].
  split; [by rewrite length_alter|].
  apply Forall_alter; [done|]. intros grid _ [Hy Hrows].
  split; [by rewrite length_alter|].
  apply Forall_alter; [done|]. intros row _ Hx.
  by rewrite length_alter.
Qed.

End Shape.

(** A profiler built with extents that are all positive is within bounds,
    and [count] with coordinates inside the extents keeps it so: on such a
    profiler [count] never indexes outside the container. *)
Theorem count_stays_in_bounds :
  forall (D : Type) (A : Arith D),
    (forall (numX numY numZ : nat) (now : time_point),
        (0 < numX)%nat -> (0 < numY)%nat -> (0 < numZ)%nat ->
        TimeProfiler2D.wf (TimeProfiler2D.new (D:=D) numX numY numZ now))
    /\ (forall (p : TimeProfiler2D.t D) (s : STAGE) (x y z : nat)
               (now : time_point),
          TimeProfiler2D.wf p ->
          (x < TimeProfiler2D.m_numX p)%nat ->
          (y < TimeProfiler2D.m_numY p)%nat ->
          (z < TimeProfiler2D.m_numZ p)%nat ->
          exists p',
            TimeProfiler2D.count s x y z now p = Some p'
            /\ TimeProfiler2D.wf p').
Proof.
  intros D A. split.
  - intros numX numY numZ now HX HY HZ. split; [apply shaped_new|done].
  - intros p s x y z now (Hsh & Hx0 & Hy0 & Hz0) Hx Hy Hz.
    destruct (proj2 (shaped_cell p (TimeProfiler2D.m_curZ p)
                       (TimeProfiler2D.m_stage p) (TimeProfiler2D.m_curY p)
                       (TimeProfiler2D.m_curX p) Hsh)) as [v Hv]; [done|].
    eexists. split; [by apply (count_Some _ _ _ _ _ _ v)|].
    split; [|done].
    by apply (shaped_cell_add p).
Qed.

Lemma count_stays_in_bounds_witness :
  exists p',
    TimeProfiler2D.count P_SAO 1 2 0 7 (TimeProfiler2D.new (D:=float) 2 3 1 0)
    = Some p'
    /\ TimeProfiler2D.wf p'.
Proof.
  refine (proj2 (count_stays_in_bounds float binary64)
            (TimeProfiler2D.new 2 3 1 0) P_SAO 1%nat 2%nat 0%nat 7 _ _ _ _).
  - exact (proj1 (count_stays_in_bounds float binary64) 2%nat 3%nat 1%nat 0
             ltac:(lia) ltac:(lia) ltac:(lia)).
  - simpl. lia.
  - simpl. lia.
  - simpl. lia.
Defined.

(** A profiler built with an extent of zero has no cell at its initial key
    (0, 0, 0): the first [count], and likewise [stop], indexes outside the
    container. *)
Theorem count_on_empty_extent :
  forall (D : Type) (A : Arith D) (numX numY numZ : nat) (tc now : time_point)
         (s : STAGE) (x y z : nat),
    numX = 0%nat \/ numY = 0%nat \/ numZ = 0%nat ->
    TimeProfiler2D.count s x y z now (TimeProfiler2D.new (D:=D) numX numY numZ tc)
    = None
    /\ TimeProfiler2D.stop s now (TimeProfiler2D.new (D:=D) numX numY numZ tc)
       = None.
Proof.
  intros D A numX numY numZ tc now s x y z H0.
  assert (TimeProfiler2D.cell
            (TimeProfiler2D.m_counters (TimeProfiler2D.new (D:=D) numX numY numZ tc))
            0 P_VOID 0 0 = None) as Hnone.
  { apply eq_None_not_Some. intros Hs.
    apply (shaped_cell (TimeProfiler2D.new numX numY numZ tc)) in Hs;
      [|apply shaped_new].
    simpl in Hs. lia. }
  unfold TimeProfiler2D.stop, TimeProfiler2D.count.
  cbn [TimeProfiler2D.new TimeProfiler2D.m_curX TimeProfiler2D.m_curY
       TimeProfiler2D.m_curZ TimeProfiler2D.m_stage TimeProfiler2D.m_counters]
    in *.
  by rewrite Hnone.
Qed.

Lemma count_on_empty_extent_witness :
  TimeProfiler2D.count P_SAO 0 0 0 5 (TimeProfiler2D.new (D:=float) 4 4 0 0)
  = None.
Proof.
  refine (proj1 (count_on_empty_extent float binary64 4 4 0 0 5 P_SAO 0 0 0 _)).
  right. right. reflexivity.
Defined.

(** [count] does not check the coordinates it is given.  With coordinates
    outside the extents the call itself goes through, and it is the next
    [count] or [stop], whatever its arguments, that indexes outside the
    container. *)
Theorem count_defers_bounds :
  forall (D : Type) (A : Arith D) (p : TimeProfiler2D.t D) (s : STAGE)
         (x y z : nat) (now : time_point),
    TimeProfiler2D.wf p ->
    (TimeProfiler2D.m_numX p <= x)%nat \/ (TimeProfiler2D.m_numY p <= y)%nat
    \/ (TimeProfiler2D.m_numZ p <= z)%nat ->
    exists p',
      TimeProfiler2D.count s x y z now p = Some p'
      /\ (forall (s' : STAGE) (x' y' z' : nat) (now' : time_point),
            TimeProfiler2D.count s' x' y' z' now' p' = None
            /\ TimeProfiler2D.stop s' now' p' = None).
Proof.
  intros D A p s x y z now (Hsh & Hx0 & Hy0 & Hz0) Hout.
  destruct (proj2 (shaped_cell p (TimeProfiler2D.m_curZ p)
                     (TimeProfiler2D.m_stage p) (TimeProfiler2D.m_curY p)
                     (TimeProfiler2D.m_curX p) Hsh)) as [v Hv]; [done|].
  eexists. split; [by apply (count_Some _ _ _ _ _ _ v)|].
  intros s' x' y' z' now'.
  set (p' := TimeProfiler2D.mk _ _ _ _ _ _ _ _ _ _).
  assert (TimeProfiler2D.cell (TimeProfiler2D.m_counters p') z s y x = None)
    as Hnone.
  { apply eq_None_not_Some. intros Hs.
    apply (shaped_cell p') in Hs.
    - simpl in Hs. lia.
    - apply (shaped_cell_add
               (TimeProfiler2D.mk now (TimeProfiler2D.m_startTime p) s
                  (TimeProfiler2D.m_numX p) (TimeProfiler2D.m_numY p)
                  (TimeProfiler2D.m_numZ p) x y z
                  (TimeProfiler2D.m_counters p))).
      exact Hsh. }
  unfold TimeProfiler2D.stop, TimeProfiler2D.count.
  cbn [p' TimeProfiler2D.m_curX TimeProfiler2D.m_curY TimeProfiler2D.m_curZ
       TimeProfiler2D.m_stage TimeProfiler2D.m_counters] in *.
  by rewrite Hnone.
Qed.

Lemma count_defers_bounds_witness :
  exists p',
    TimeProfiler2D.count P_SAO 2 0 0 7 (TimeProfiler2D.new (D:=float) 2 3 1 0)
    = Some p'
    /\ (forall (s' : STAGE) (x' y' z' : nat) (now' : time_point),
          TimeProfiler2D.count s' x' y' z' now' p' = None
          /\ TimeProfiler2D.stop s' now' p' = None).
Proof.
  refine (count_defers_bounds float binary64
            (TimeProfiler2D.new 2 3 1 0) P_SAO 2%nat 0%nat 0%nat 7 _ _).
  - split; [apply shaped_new | simpl; lia].
  - left. simpl. lia.
Defined.

(** ** The extended profiler: scopes and [stop] *)

(** One scope of the extended profiler: a guard for the key (s, x, y, z)
    built at [t0] and destroyed at [t1], when the current key is another
    one and both have a cell.  The cell of the key current at entry gets
    the time up to the entry, the cell of the guard's key the time inside
    the scope, no other cell changes, and the key current at entry is
    current again. *)
Theorem guard2D_scope :
  forall (D : Type) (A : Arith D) (p : TimeProfiler2D.t D) (s : STAGE)
         (x y z : nat) (t0 t1 : time_point) (v0 v : D),
    let S0 := TimeProfiler2D.m_stage p in
    let x0 := TimeProfiler2D.m_curX p in
    let y0 := TimeProfiler2D.m_curY p in
    let z0 := TimeProfiler2D.m_curZ p in
    TimeProfiler2D.cell (TimeProfiler2D.m_counters p) z0 S0 y0 x0 = Some v0 ->
    TimeProfiler2D.cell (TimeProfiler2D.m_counters p) z s y x = Some v ->
    (z, s, y, x) <> (z0, S0, y0, x0) ->
    exists p',
      StageTimeProfiler2D.scoped s x y z t0 t1 p = Some p'
      /\ TimeProfiler2D.cell (TimeProfiler2D.m_counters p') z0 S0 y0 x0
         = Some (d_add v0 (d_of_Z (t0 - TimeProfiler2D.m_previous p)))
      /\ TimeProfiler2D.cell (TimeProfiler2D.m_counters p') z s y x
         = Some (d_add v (d_of_Z (t1 - t0)))
      /\ (forall z' s' y' x',
            (z', s', y', x') <> (z0, S0, y0, x0) ->
            (z', s', y', x') <> (z, s, y, x) ->
            TimeProfiler2D.cell (TimeProfiler2D.m_counters p') z' s' y' x'
            = TimeProfiler2D.cell (TimeProfiler2D.m_counters p) z' s' y' x')
      /\ (TimeProfiler2D.curStage p', TimeProfiler2D.curX p',
          TimeProfiler2D.curY p', TimeProfiler2D.curZ p') = (S0, x0, y0, z0)
      /\ TimeProfiler2D.m_previous p' = t1.
Proof.
  intros D A p s x y z t0 t1 v0 v S0 x0 y0 z0 Hv0 Hv Hne.
  destruct (count_charges s x y z t0 p v0 Hv0)
    as (p1 & Hc1 & Hk0 & Hoth1 & Hs1 & Hx1 & Hy1 & Hz1 & Ht1).
  fold S0 x0 y0 z0 in Hk0, Hoth1.
  unfold TimeProfiler2D.curStage, TimeProfiler2D.curX, TimeProfiler2D.curY,
    TimeProfiler2D.curZ in *.
  assert (TimeProfiler2D.cell (TimeProfiler2D.m_counters p1)
            (TimeProfiler2D.m_curZ p1) (TimeProfiler2D.m_stage p1)
            (TimeProfiler2D.m_curY p1) (TimeProfiler2D.m_curX p1) = Some v)
    as Hv1.
  { rewrite Hs1, Hx1, Hy1, Hz1, Hoth1 by done. exact Hv. }
  destruct (count_charges S0 x0 y0 z0 t1 p1 v Hv1)
    as (p2 & Hc2 & Hk & Hoth2 & Hs2 & Hx2 & Hy2 & Hz2 & Ht2).
  rewrite Hs1, Hx1, Hy1, Hz1 in Hk, Hoth2. rewrite Ht1 in Hk.
  unfold TimeProfiler2D.curStage, TimeProfiler2D.curX, TimeProfiler2D.curY,
    TimeProfiler2D.curZ in *.
  exists p2. split.
  - unfold StageTimeProfiler2D.scoped, StageTimeProfiler2D.new,
      StageTimeProfiler2D.delete.
    rewrite Hc1. simpl. exact Hc2.
  - split; [|split; [exact Hk|split; [|split; [congruence|exact Ht2]]]].
    + rewrite Hoth2 by congruence. exact Hk0.
    + intros z' s' y' x' Hn0 Hn. rewrite Hoth2 by done. by apply Hoth1.
Qed.

Lemma guard2D_scope_witness :
  exists p',
    StageTimeProfiler2D.scoped P_ALF 1 2 0 3 10
      (TimeProfiler2D.new (D:=float) 2 3 1 0) = Some p'
    /\ TimeProfiler2D.cell (TimeProfiler2D.m_counters p') 0 P_VOID 0 0
       = Some (d_add d_zero (d_of_Z (3 - 0)))
    /\ TimeProfiler2D.cell (TimeProfiler2D.m_counters p') 0 P_ALF 2 1
       = Some (d_add d_zero (d_of_Z (10 - 3))).
Proof.
  destruct (guard2D_scope float binary64 (TimeProfiler2D.new 2 3 1 0) P_ALF
              1%nat 2%nat 0%nat 3 10 d_zero d_zero eq_refl eq_refl
              ltac:(discriminate))
    as (p' & Hs & H0 & H1 & _).
  exists p'. split; [exact Hs|]. split; [exact H0 | exact H1].
Defined.

(** [TimeProfiler2D::stop] sets the timestamp: after [stop] at [t1] the
    next [count], at [t2], charges the current cell with the time since
    [t1] alone, so that the cell has gained the time from the last
    timestamp to [t2] in two parts, none of it twice. *)
Theorem stop2D_then_count :
  forall (D : Type) (A : Arith D) (p : TimeProfiler2D.t D) (s s' : STAGE)
         (x y z : nat) (t1 t2 : time_point) (v : D),
    let S0 := TimeProfiler2D.m_stage p in
    let x0 := TimeProfiler2D.m_curX p in
    let y0 := TimeProfiler2D.m_curY p in
    let z0 := TimeProfiler2D.m_curZ p in
    TimeProfiler2D.cell (TimeProfiler2D.m_counters p) z0 S0 y0 x0 = Some v ->
    exists p1 p2,
      TimeProfiler2D.stop s t1 p = Some p1
      /\ TimeProfiler2D.count s' x y z t2 p1 = Some p2
      /\ TimeProfiler2D.cell (TimeProfiler2D.m_counters p2) z0 S0 y0 x0
         = Some (d_add (d_add v (d_of_Z (t1 - TimeProfiler2D.m_previous p)))
                       (d_of_Z (t2 - t1))).
Proof.
  intros D A p s s' x y z t1 t2 v S0 x0 y0 z0 Hv.
  destruct (count_charges S0 x0 y0 z0 t1 p v Hv)
    as (p1 & Hc1 & Hk1 & _ & Hs1 & Hx1 & Hy1 & Hz1 & Ht1).
  fold S0 x0 y0 z0 in Hk1.
  unfold TimeProfiler2D.curStage, TimeProfiler2D.curX, TimeProfiler2D.curY,
    TimeProfiler2D.curZ in *.
  assert (TimeProfiler2D.cell (TimeProfiler2D.m_counters p1)
            (TimeProfiler2D.m_curZ p1) (TimeProfiler2D.m_stage p1)
            (TimeProfiler2D.m_curY p1) (TimeProfiler2D.m_curX p1)
          = Some (d_add v (d_of_Z (t1 - TimeProfiler2D.m_previous p)))) as Hv1.
  { rewrite Hs1, Hx1, Hy1, Hz1. exact Hk1. }
  destruct (count_charges s' x y z t2 p1 _ Hv1) as (p2 & Hc2 & Hk2 & _).
  rewrite Hs1, Hx1, Hy1, Hz1, Ht1 in Hk2.
  exists p1, p2. split; [exact Hc1|]. split; [exact Hc2 | exact Hk2].
Qed.

Lemma stop2D_then_count_witness :
  exists p1 p2,
    TimeProfiler2D.stop P_SAO 5 (TimeProfiler2D.new (D:=float) 2 3 1 0)
    = Some p1
    /\ TimeProfiler2D.count P_ALF 1 1 0 9 p1 = Some p2
    /\ TimeProfiler2D.cell (TimeProfiler2D.m_counters p2) 0 P_VOID 0 0
       = Some (d_add (d_add d_zero (d_of_Z (5 - 0))) (d_of_Z (9 - 5))).
Proof.
  exact (stop2D_then_count float binary64 (TimeProfiler2D.new 2 3 1 0)
           P_SAO P_ALF 1%nat 1%nat 0%nat 5 9 d_zero eq_refl).
Defined.
